(** * REST transport layer of the client: nodejs/lib/util/http.js

    A shallow embedding of the [Http] module: the response [handler], the
    retryability test [shouldFallback], host resolution [getHosts], the
    dispatcher [Http.do] with its inner [tryAHost], the executor
    [Http.doUri] and the probe [Http.checkConnectivity].

    The module is asynchronous, but inside one dispatch every request is
    issued from the callback of the previous one, so a dispatch is a
    sequential computation over
    - the client object [rest] (its field [_currentFallback] is mutated),
    - the module-level static [Http.agent],
    - the clock read by [Date.now()],
    - the network, which answers each request.
    These are threaded explicitly.  Dispatches of other callers interleaving
    with the one under study are outside the model, and the callback the
    caller supplies is taken not to throw. *)

From Stdlib Require Import ZArith NArith String Ascii List Bool Lia.
From stdpp Require Import base strings gmap list pretty.
Import ListNotations.

Set Warnings "-register-all".
Open Scope string_scope.
Open Scope Z_scope.

(** ** JavaScript data *)

(** A [Buffer] is its byte string. *)
Definition Buffer := string.

(** The values a response body can take once it has (or has not) been
    decoded.  Numbers are the integral ones. *)
Inductive JsValue :=
| VUndefined
| VNull
| VBool (b : bool)
| VNum (n : Z)
| VStr (s : string)
| VBuffer (bytes : Buffer)
| VArr (items : list JsValue)
| VObj (fields : list (string * JsValue)).

(** [if (v)]: the falsy values are undefined, null, false, 0 and the empty
    string. *)
Definition truthy (v : JsValue) : bool :=
  match v with
  | VUndefined | VNull => false
  | VBool b => b
  | VNum n => negb (n =? 0)
  | VStr s => negb (String.eqb s "")
  | VBuffer _ | VArr _ | VObj _ => true
  end.

Fixpoint assoc (k : string) (fields : list (string * JsValue)) : JsValue :=
  match fields with
  | [] => VUndefined
  | (k', v) :: fields' => if String.eqb k' k then v else assoc k fields'
  end.

(** ** Strings *)

Definition bytes (codes : list nat) : string :=
  string_of_list_ascii (map ascii_of_nat codes).

(** Text is kept as the bytes of the buffer it came from.  These are the
    code points that [String.prototype.trim] removes (WhiteSpace and
    LineTerminator), each as the UTF-8 bytes [Buffer.toString()] decodes it
    from: TAB LF VT FF CR SP, then U+00A0, U+1680, U+2000 to U+200A, U+2028,
    U+2029, U+202F, U+205F, U+3000 and U+FEFF.  No other byte sequence
    decodes to one of them, and none is a prefix of another. *)
Definition whitespace : list string :=
  map bytes
    (List.app
       [ [9]; [10]; [11]; [12]; [13]; [32]; [194; 160]; [225; 154; 128] ]
       (List.app
          (map (fun b => [226; 128; b]) (seq 128 11))
          [ [226; 128; 168]; [226; 128; 169]; [226; 128; 175];
            [226; 129; 159]; [227; 128; 128]; [239; 187; 191] ]))%nat.

(** [Some rest] when [s] is [p] followed by [rest]. *)
Fixpoint strip_prefix (p s : string) : option string :=
  match p, s with
  | EmptyString, _ => Some s
  | String a p', String b s' => if Ascii.eqb a b then strip_prefix p' s' else None
  | String _ _, EmptyString => None
  end.

Fixpoint strip_any (ps : list string) (s : string) : option string :=
  match ps with
  | [] => None
  | p :: ps' =>
      match strip_prefix p s with
      | Some rest => Some rest
      | None => strip_any ps' s
      end
  end.

Fixpoint trim_left (ws : list string) (fuel : nat) (s : string) : string :=
  match fuel with
  | O => s
  | S fuel =>
      match strip_any ws s with
      | Some rest => trim_left ws fuel rest
      | None => s
      end
  end.

Definition reverse_string (s : string) : string :=
  string_of_list_ascii (rev (list_ascii_of_string s)).

Definition trimStart (s : string) : string :=
  trim_left whitespace (String.length s) s.

Definition trimEnd (s : string) : string :=
  reverse_string
    (trim_left (map reverse_string whitespace) (String.length s) (reverse_string s)).

(** [s.trim()] *)
Definition trim (s : string) : string := trimEnd (trimStart s).

Definition join (sep : string) (parts : list string) : string :=
  match parts with
  | [] => ""
  | p :: ps => fold_left (fun acc q => acc +:+ sep +:+ q) ps p
  end.

(** ** Errors *)

(** The [code] property of an error object: absent, a string (errno names,
    header values) or a number (service error codes). *)
Inductive ErrCode :=
| CodeUndefined
| CodeStr (s : string)
| CodeNum (n : Z).

(** Which constructor made the error object. *)
Inductive ErrClass :=
| ErrorInfoObj      (* new ErrorInfo(...) / ErrorInfo.fromValues(...) *)
| TransportError    (* a rejection of got that is not an HTTPError *)
| SyntaxError       (* thrown by a decoder *)
| TypeError.        (* property access on null or undefined *)

Record Err := {
  err_class : ErrClass;
  err_message : string;
  err_code : ErrCode;
  err_statusCode : option Z   (* None: the property is undefined *)
}.

(** [v.toString()]: throws [exn] on undefined and null; an array joins its
    elements with commas, undefined and null elements giving the empty
    string. *)
Fixpoint toString (exn : Err) (v : JsValue) : Err + string :=
  match v with
  | VUndefined | VNull => inl exn
  | VBool b => inr (if b then "true" else "false")
  | VNum n => inr (pretty n)
  | VStr s => inr s
  | VBuffer b => inr b
  | VArr items =>
      inr (join ","
             (map (fun item => match toString exn item with
                               | inl _ => ""
                               | inr s => s
                               end) items))
  | VObj _ => inr "[object Object]"
  end.

(** [code === 'E...']: strict equality with a string literal. *)
Definition code_is (code : ErrCode) (lit : string) : bool :=
  match code with
  | CodeStr s => String.eqb s lit
  | _ => false
  end.

(** [statusCode >= lo && statusCode <= hi]; both comparisons are false on
    undefined. *)
Definition status_between (statusCode : option Z) (lo hi : Z) : bool :=
  match statusCode with
  | Some n => (lo <=? n) && (n <=? hi)
  | None => false
  end.

Definition shouldFallback (err : Err) : bool :=
  let code := err_code err in
  let statusCode := err_statusCode err in
  code_is code "ENETUNREACH" ||
  code_is code "EHOSTUNREACH" ||
  code_is code "EHOSTDOWN" ||
  code_is code "ETIMEDOUT" ||
  code_is code "ESOCKETTIMEDOUT" ||
  code_is code "ENOTFOUND" ||
  code_is code "ECONNRESET" ||
  code_is code "ECONNREFUSED" ||
  status_between statusCode 500 504.

(** The classification as the specification words it: the recognised
    network failures, in the order network unreachable, host unreachable,
    host down, timeout, socket timeout, DNS not found, connection reset,
    connection refused. *)
Definition network_failure_codes : list string :=
  [ "ENETUNREACH"; "EHOSTUNREACH"; "EHOSTDOWN"; "ETIMEDOUT";
    "ESOCKETTIMEDOUT"; "ENOTFOUND"; "ECONNRESET"; "ECONNREFUSED" ].

Definition network_failure (code : ErrCode) : Prop :=
  exists s, code = CodeStr s /\ In s network_failure_codes.

Definition server_failure (statusCode : option Z) : Prop :=
  exists n, statusCode = Some n /\ 500 <= n <= 504.

Definition retryable_by_spec (err : Err) : Prop :=
  network_failure (err_code err) \/ server_failure (err_statusCode err).

(** ** Requests, responses and the client object *)

Definition Host := string.
Definition Uri := string.
Abbreviation Headers := (gmap string string).
Abbreviation Params := (gmap string string).

(** [Http.methods] *)
Inductive Method := M_get | M_delete | M_post | M_put | M_patch.

Record Response := {
  res_statusCode : Z;
  res_headers : Headers;
  res_body : Buffer          (* responseType: 'buffer' *)
}.

(** What a promise of got is rejected with. *)
Inductive Rejection :=
| HTTPError (response : Response)   (* err instanceof got.HTTPError *)
| OtherError (err : Err).

(** How the promise returned by [got[method](doOptions)] settles. *)
Inductive Settled :=
| Fulfilled (res : Response)
| Rejected (err : Rejection).

(** The [arguments] a callback is invoked with: [callback(err)] or the
    five-argument form [(err, body, headers, unpacked, statusCode)]. *)
Inductive CallbackArgs :=
| ArgsErr (err : Err)
| ArgsFull (err : option Err) (body : JsValue) (headers : Headers)
           (unpacked : bool) (statusCode : Z).

Definition args_err (a : CallbackArgs) : option Err :=
  match a with
  | ArgsErr e => Some e
  | ArgsFull e _ _ _ _ => e
  end.

(** What a synchronous call did: returned after invoking the callback, or
    threw. *)
Inductive Handled :=
| Returned (a : CallbackArgs)
| Thrown (exn : Err).

(** What one request came to, seen from the code that supplied the
    callback: the callback ran with these arguments, or the promise chain
    ended in a rejection nobody handles and the callback never runs. *)
Inductive Completion :=
| Called (a : CallbackArgs)
| Unhandled (exn : Err).

Record AgentOptions := { maxSockets : Z; keepAlive : bool }.

(** [new http.Agent(agentOptions)]: an object with an identity. *)
Record Agent := { agent_id : nat; agent_options : AgentOptions }.
Record AgentPair := { agent_http : Agent; agent_https : Agent }.

Record Timeouts := { httpRequestTimeout : Z; fallbackRetryTimeout : Z }.

(** [rest.options]: what this file reads, and the host configuration that
    [Defaults] reads. *)
Record ClientOptions := {
  restAgentOptions : option AgentOptions;   (* None: not set *)
  timeouts : Timeouts;
  restHost : Host;
  fallbackHosts : list Host
}.

(** [{host: ..., validUntil: ...}]; the host is whatever
    [candidateHosts.shift()] gave, [None] standing for undefined. *)
Record FallbackRecord := { host : option Host; validUntil : Z }.

Record Connection := { connectionManager_host : option Host }.

Record Rest := {
  options : ClientOptions;
  connection : option Connection;
  _currentFallback : option FallbackRecord   (* None: null or never set *)
}.

Definition set_currentFallback (rest : Rest) (f : option FallbackRecord) : Rest :=
  {| options := options rest; connection := connection rest;
     _currentFallback := f |}.

(** The [path] argument of [Http.do]: a string, or a function of the host. *)
Inductive Path :=
| PathString (p : string)
| PathFunction (f : option Host -> Uri).

(** [if (body)] on the [body] argument of [doUri]: null and the empty string
    fail the test, and [doOptions] then has no body. *)
Definition body_if_truthy (body : option Buffer) : option Buffer :=
  match body with
  | Some b => if String.eqb b "" then None else Some b
  | None => None
  end.

(** [doOptions], as handed to got. *)
Record DoOptions := {
  do_method : Method;
  do_headers : option Headers;
  do_body : option Buffer;
  do_searchParams : option Params;
  do_agent : AgentPair;
  do_url : Uri;
  do_timeout_request : Z
}.

Record Reply := { settled : Settled; latency : N }.

(** The network: the answer to the [n]-th request issued, given what was
    asked. *)
Definition Network := nat -> DoOptions -> Reply.

(** The state outside the client object. *)
Record World := {
  now : Z;                          (* Date.now() *)
  issued : list DoOptions;          (* requests sent so far, oldest first *)
  Http_agent : option AgentPair;    (* Http.agent *)
  agents_made : nat                 (* how many Agent objects exist *)
}.

(** Collaborators that live outside this file: the JSON built-in, the
    platform's msgpack, [Utils.inspect], [ErrorInfo.fromValues], the message
    the engine puts in a TypeError, the [Defaults] module and the client's
    [baseUri] (taken to read the client's options only).  The host lists
    are values: [Defaults] is taken to build a new array on every call, so
    the [shift()] in [tryAHost] never reaches the configuration. *)
Record Platform := {
  JSON_parse : JsValue -> Err + JsValue;       (* inl: it throws *)
  msgpack_decode : JsValue -> Err + JsValue;   (* inl: it throws *)
  Utils_inspect : JsValue -> string;
  ErrorInfo_fromValues : JsValue -> Err;
  TypeError_message : JsValue -> string -> string;
  Defaults_getHosts : ClientOptions -> list Host;
  Defaults_getFallbackHosts : ClientOptions -> list Host;
  Defaults_restAgentOptions : AgentOptions;
  Defaults_TIMEOUTS : Timeouts;
  Defaults_internetUpUrl : Uri;
  baseUri : ClientOptions -> option Host -> string
}.

(** ** The module *)

Section Http.

Context (P : Platform) (net : Network).

(** [new ErrorInfo(message, code, statusCode)] *)
Definition new_ErrorInfo (message : string) (code : ErrCode) (statusCode : Z) : Err :=
  {| err_class := ErrorInfoObj; err_message := message;
     err_code := code; err_statusCode := Some statusCode |}.

Definition type_error (v : JsValue) (name : string) : Err :=
  {| err_class := TypeError; err_message := TypeError_message P v name;
     err_code := CodeUndefined; err_statusCode := None |}.

(** [v.name] for a name that no prototype defines (here: error): throws on
    undefined and null, reads an own property of an object, and is
    undefined on every other value. *)
Definition get_property (v : JsValue) (name : string) : Err + JsValue :=
  match v with
  | VUndefined | VNull => inl (type_error v name)
  | VObj fields => inr (assoc name fields)
  | _ => inr VUndefined
  end.

(** The [switch] on [headers['content-type']]. *)
Definition decode_declared (contentType : option string) (body : JsValue)
  : Err + JsValue :=
  match contentType with
  | Some ct =>
      if String.eqb ct "application/json" then JSON_parse P body
      else if String.eqb ct "application/x-msgpack" then msgpack_decode P body
      else inr body
  | None => inr body
  end.

(** [headers['x-ably-errormessage'] || generic] *)
Definition error_message (headers : Headers) (statusCode : Z) (body : JsValue) : string :=
  let generic := "Error response received from server: " +:+ pretty statusCode
                 +:+ " body was: " +:+ Utils_inspect P body in
  match headers !! "x-ably-errormessage" with
  | Some m => if String.eqb m "" then generic else m
  | None => generic
  end.

Definition header_code (headers : Headers) : ErrCode :=
  match headers !! "x-ably-errorcode" with
  | Some c => CodeStr c
  | None => CodeUndefined
  end.

(** [handler(uri, params, callback)(err, response, body)] *)
Definition handler (err : option Err) (response : option Response) (body : JsValue)
  : Handled :=
  match err with
  | Some err => Returned (ArgsErr err)
  | None =>
    match response with
    | None => Thrown (type_error VUndefined "statusCode")
    | Some response =>
      let statusCode := res_statusCode response in
      let headers := res_headers response in
      if 300 <=? statusCode then
        match decode_declared (headers !! "content-type") body with
        | inl exn => Thrown exn
        | inr body =>
          match get_property body "error" with
          | inl exn => Thrown exn
          | inr body_error =>
            let error :=
              if truthy body_error then ErrorInfo_fromValues P body_error
              else new_ErrorInfo (error_message headers statusCode body)
                                 (header_code headers) statusCode in
            Returned (ArgsFull (Some error) body headers true statusCode)
          end
        end
      else Returned (ArgsFull None body headers false statusCode)
    end
  end.

(** *** Host resolution *)

(** [connection && connection.connectionManager.host], tested by [if]: a
    missing connection, a missing host and the empty string all fail it. *)
Definition connectionHost (client : Rest) : option Host :=
  match connection client with
  | Some connection =>
      match connectionManager_host connection with
      | Some h => if String.eqb h "" then None else Some h
      | None => None
      end
  | None => None
  end.

Definition getHosts (client : Rest) : list Host :=
  match connectionHost client with
  | Some connectionHost =>
      [connectionHost] ++ Defaults_getFallbackHosts P (options client)
  | None => Defaults_getHosts P (options client)
  end.

(** *** The executor *)

Definition new_Agent (w : World) (agentOptions : AgentOptions) : Agent * World :=
  ({| agent_id := agents_made w; agent_options := agentOptions |},
   {| now := now w; issued := issued w; Http_agent := Http_agent w;
      agents_made := S (agents_made w) |}).

(** [if (!Http.agent) Http.agent = {http: new ..., https: new ...}] *)
Definition ensure_agent (agentOptions : AgentOptions) (w : World) : AgentPair * World :=
  match Http_agent w with
  | Some agents => (agents, w)
  | None =>
      let '(a_http, w1) := new_Agent w agentOptions in
      let '(a_https, w2) := new_Agent w1 agentOptions in
      let agents := {| agent_http := a_http; agent_https := a_https |} in
      (agents, {| now := now w2; issued := issued w2; Http_agent := Some agents;
                  agents_made := agents_made w2 |})
  end.

(** The request goes out and the promise settles [latency] later. *)
Definition got (doOptions : DoOptions) (w : World) : Settled * World :=
  let reply := net (length (issued w)) doOptions in
  (settled reply,
   {| now := now w + Z.of_N (latency reply); issued := issued w ++ [doOptions];
      Http_agent := Http_agent w; agents_made := agents_made w |}).

(** [.catch(err => ...)]: nothing catches what is thrown in here. *)
Definition on_catch (err : Rejection) : Completion :=
  match err with
  | HTTPError response =>
      match handler None (Some response) (VBuffer (res_body response)) with
      | Returned a => Called a
      | Thrown exn => Unhandled exn
      end
  | OtherError err =>
      match handler (Some err) None VUndefined with
      | Returned a => Called a
      | Thrown exn => Unhandled exn
      end
  end.

(** [.then(res => ...)]: what is thrown in here rejects the promise that
    [catch] is attached to. *)
Definition on_then (res : Response) : Completion :=
  match handler None (Some res) (VBuffer (res_body res)) with
  | Returned a => Called a
  | Thrown exn => on_catch (OtherError exn)
  end.

Definition settle (s : Settled) : Completion :=
  match s with
  | Fulfilled res => on_then res
  | Rejected err => on_catch err
  end.

Definition doUri (method : Method) (rest : option Rest) (uri : Uri)
    (headers : option Headers) (body : option Buffer) (params : option Params)
    (w : World) : Completion * World :=
  let agentOptions :=
    match rest with
    | Some rest =>
        match restAgentOptions (options rest) with
        | Some o => o
        | None => Defaults_restAgentOptions P
        end
    | None => Defaults_restAgentOptions P
    end in
  let '(agent, w1) := ensure_agent agentOptions w in
  let doOptions :=
    {| do_method := method; do_headers := headers;
       do_body := body_if_truthy body;
       do_searchParams := params; do_agent := agent; do_url := uri;
       do_timeout_request :=
         httpRequestTimeout
           match rest with
           | Some rest => timeouts (options rest)
           | None => Defaults_TIMEOUTS P
           end |} in
  let '(s, w2) := got doOptions w1 in
  (settle s, w2).

(** [Http.getUri]: one of the generated wrappers, for a method without a
    body. *)
Definition getUri (rest : option Rest) (uri : Uri) (headers : option Headers)
    (params : option Params) (w : World) : Completion * World :=
  doUri M_get rest uri headers None params w.

(** *** The dispatcher *)

Section Dispatch.

Context (method : Method) (path : Path) (headers : option Headers)
        (body : option Buffer) (params : option Params).

Definition uriFromHost (rest : Rest) (host : option Host) : Uri :=
  match path with
  | PathFunction f => f host
  | PathString path => baseUri P (options rest) host +:+ path
  end.

(** [err && shouldFallback(err)] on the callback's first argument. *)
Definition err_and_shouldFallback (a : CallbackArgs) : bool :=
  match args_err a with
  | Some err => shouldFallback err
  | None => false
  end.

(** The tail of [tryAHost]'s callback: the record is written when
    [persistOnSuccess] is set, then the caller's callback gets the same
    arguments. *)
Definition persist_and_deliver (host : option Host) (persistOnSuccess : bool)
    (a : CallbackArgs) (rest : Rest) (w : World) : Completion * Rest * World :=
  let rest' :=
    if persistOnSuccess then
      set_currentFallback rest
        (Some {| host := host;
                 validUntil := now w + fallbackRetryTimeout (timeouts (options rest)) |})
    else rest in
  (Called a, rest', w).

(** [host = candidateHosts.shift()] is the head (undefined on an empty
    array); afterwards [candidateHosts] is the tail, and
    [candidateHosts.length] is truthy when that tail is not empty. *)
Fixpoint tryAHost (candidateHosts : list Host) (persistOnSuccess : bool)
    (rest : Rest) (w : World) {struct candidateHosts} : Completion * Rest * World :=
  let host := head candidateHosts in
  let '(c, w1) :=
    doUri method (Some rest) (uriFromHost rest host) headers body params w in
  match c with
  | Unhandled exn => (Unhandled exn, rest, w1)
  | Called a =>
      match candidateHosts with
      | _ :: ((_ :: _) as candidateHosts) =>
          if err_and_shouldFallback a then tryAHost candidateHosts true rest w1
          else persist_and_deliver host persistOnSuccess a rest w1
      | _ => persist_and_deliver host persistOnSuccess a rest w1
      end
  end.

(** [Http.do] from [var hosts = getHosts(rest)] on: the normal sequence. *)
Definition normal_sequence (rest : Rest) (w : World) : Completion * Rest * World :=
  let hosts := getHosts rest in
  if Nat.eqb (length hosts) 1 then
    let '(c, w1) :=
      doUri method (Some rest) (uriFromHost rest (hosts !! 0%nat))
            headers body params w in
    (c, rest, w1)
  else tryAHost hosts false rest w.

(** [Http.do].  It calls itself from the callback of the stored-fallback
    attempt; [fuel] bounds the number of entries and [None] means the
    bound was hit. *)
Fixpoint do_ (fuel : nat) (rest : Rest) (w : World)
  : option (Completion * Rest * World) :=
  match fuel with
  | O => None
  | S fuel =>
      match _currentFallback rest with
      | Some currentFallback =>
          if now w <? validUntil currentFallback then
            (* Use stored fallback *)
            let '(c, w1) :=
              doUri method (Some rest) (uriFromHost rest (host currentFallback))
                    headers body params w in
            match c with
            | Unhandled exn => Some (Unhandled exn, rest, w1)
            | Called a =>
                if err_and_shouldFallback a then
                  do_ fuel (set_currentFallback rest None) w1
                else Some (Called a, rest, w1)
            end
          else
            (* Fallback expired; remove it and fall through *)
            Some (normal_sequence (set_currentFallback rest None) w)
      | None => Some (normal_sequence rest w)
      end
  end.

End Dispatch.

(** *** The connectivity probe *)

(** What the caller of [checkConnectivity] sees. *)
Inductive Probe :=
| Reported (err : option Err) (connected : bool)   (* callback(err, connected) *)
| NotReported (exn : Err)     (* the request's promise chain rejected unhandled *)
| CallbackThrew (exn : Err).  (* the probe's own callback threw; not followed further *)

(** The second argument of the callback. *)
Definition args_body (a : CallbackArgs) : JsValue :=
  match a with
  | ArgsErr _ => VUndefined
  | ArgsFull _ body _ _ _ => body
  end.

Definition checkConnectivity (w : World) : Probe * World :=
  let upUrl := Defaults_internetUpUrl P in
  let '(c, w1) := getUri None upUrl None None w in
  match c with
  | Unhandled exn => (NotReported exn, w1)
  | Called a =>
      let err := args_err a in
      let responseText := args_body a in
      match err with
      | Some _ => (Reported None false, w1)
      | None =>
          match toString (type_error responseText "toString") responseText with
          | inl exn => (CallbackThrew exn, w1)
          | inr text => (Reported None (String.eqb (trim text) "yes"), w1)
          end
      end
  end.

End Http.

(** ** Reading a run *)

(** What the [n]-th request came to, given what was asked. *)
Definition completion_of (P : Platform) (net : Network) (n : nat) (o : DoOptions)
  : Completion :=
  settle P (settled (net n o)).

(** The agent options [doUri] reads for a caller. *)
Definition caller_agentOptions (P : Platform) (rest : option Rest) : AgentOptions :=
  match rest with
  | Some rest =>
      match restAgentOptions (options rest) with
      | Some o => o
      | None => Defaults_restAgentOptions P
      end
  | None => Defaults_restAgentOptions P
  end.

(** The [doOptions] that [doUri] builds in world [w]. *)
Definition doOptions_of (P : Platform) (method : Method) (rest : option Rest)
    (uri : Uri) (headers : option Headers) (body : option Buffer)
    (params : option Params) (w : World) : DoOptions :=
  {| do_method := method; do_headers := headers;
     do_body := body_if_truthy body;
     do_searchParams := params;
     do_agent := fst (ensure_agent (caller_agentOptions P rest) w);
     do_url := uri;
     do_timeout_request :=
       httpRequestTimeout
         match rest with
         | Some rest => timeouts (options rest)
         | None => Defaults_TIMEOUTS P
         end |}.

(** The hosts [tryAHost] can go through: the candidates in order, or the
    one undefined that [shift()] gives on an empty array. *)
Definition candidates (hosts : list Host) : list (option Host) :=
  match hosts with
  | [] => [None]
  | _ => map Some hosts
  end.

(** [Run P net path rest n hs os c]: starting with the [n]-th request, the
    requests [os] went to the hosts [hs] in order; every one but the last
    ran its callback with a retryable error, which was answered by the next
    request; the last one came to [c]. *)
Inductive Run (P : Platform) (net : Network) (path : Path) (rest : Rest)
  : nat -> list (option Host) -> list DoOptions -> Completion -> Prop :=
| Run_last n h o c :
    do_url o = uriFromHost P path rest h ->
    completion_of P net n o = c ->
    Run P net path rest n [h] [o] c
| Run_retry n h o a hs os c :
    do_url o = uriFromHost P path rest h ->
    completion_of P net n o = Called a ->
    err_and_shouldFallback a = true ->
    Run P net path rest (S n) hs os c ->
    Run P net path rest n (h :: hs) (o :: os) c.

(** The record [tryAHost] writes for [host] when its callback runs in
    world [w]. *)
Definition record_for (rest : Rest) (host : option Host) (w : World) : FallbackRecord :=
  {| host := host;
     validUntil := now w + fallbackRetryTimeout (timeouts (options rest)) |}.

(** One use of the module by some caller. *)
Inductive Call :=
| CallDoUri (method : Method) (rest : option Rest) (uri : Uri)
            (headers : option Headers) (body : option Buffer) (params : option Params)
| CallDo (method : Method) (rest : Rest) (path : Path)
         (headers : option Headers) (body : option Buffer) (params : option Params)
| CallCheckConnectivity.

Definition call_rest (c : Call) : option Rest :=
  match c with
  | CallDoUri _ rest _ _ _ _ => rest
  | CallDo _ rest _ _ _ _ => Some rest
  | CallCheckConnectivity => None
  end.

(** The world after a call has run to its end; two entries of [Http.do]
    are all a dispatch makes ([do_enough_fuel] below). *)
Definition run_call (P : Platform) (net : Network) (c : Call) (w : World) : World :=
  match c with
  | CallDoUri method rest uri headers body params =>
      snd (doUri P net method rest uri headers body params w)
  | CallDo method rest path headers body params =>
      match do_ P net method path headers body params 2 rest w with
      | Some (_, _, w') => w'
      | None => w
      end
  | CallCheckConnectivity => snd (checkConnectivity P net w)
  end.

Definition run_calls (P : Platform) (net : Network) (cs : list Call) (w : World)
  : World :=
  fold_left (fun w c => run_call P net c w) cs w.

(** [agents_step ao w w']: from [w] to [w'] at least one request was sent
    and every request sent carries the pair that [Http.agent] holds in
    [w']; that pair is the very one [w] held if it held one, and otherwise
    a pair of two new agents made from the options [ao]. *)
Definition agents_step (ao : AgentOptions) (w w' : World) : Prop :=
  exists agents o os,
    Http_agent w' = Some agents /\
    issued w' = (issued w ++ o :: os)%list /\
    Forall (fun o => do_agent o = agents) (o :: os) /\
    match Http_agent w with
    | Some agents0 => agents = agents0 /\ agents_made w' = agents_made w
    | None =>
        agent_options (agent_http agents) = ao /\
        agent_options (agent_https agents) = ao /\
        agent_id (agent_http agents) = agents_made w /\
        agent_id (agent_https agents) = S (agents_made w) /\
        agents_made w' = S (S (agents_made w))
    end.

(** [agents_kept agents w w']: [Http.agent] holds [agents] before and
    after, no agent was made, and every request sent in between carries
    [agents]. *)
Definition agents_kept (agents : AgentPair) (w w' : World) : Prop :=
  Http_agent w = Some agents /\
  Http_agent w' = Some agents /\
  agents_made w' = agents_made w /\
  exists os,
    issued w' = (issued w ++ os)%list /\
    Forall (fun o => do_agent o = agents) os.

(** ** The claims of the specification, as it words them *)

(** "If statusCode < 300: Success with the decoded body", the body being
    decoded according to the declared content type. *)
Definition success_with_decoded_body (P : Platform) (response : Response) : Prop :=
  exists decoded,
    decode_declared P (res_headers response !! "content-type")
                    (VBuffer (res_body response)) = inr decoded /\
    handler P None (Some response) (VBuffer (res_body response)) =
      Returned (ArgsFull None decoded (res_headers response) false
                         (res_statusCode response)).

Definition declares_json_or_msgpack (response : Response) : Prop :=
  res_headers response !! "content-type" = Some "application/json" \/
  res_headers response !! "content-type" = Some "application/x-msgpack".

(** "every error is eventually handed back to the caller as structured
    ErrorInfo", "treated as a non-retryable application error". *)
Definition handed_back_as_application_error (P : Platform) (response : Response)
  : Prop :=
  exists error body,
    handler P None (Some response) (VBuffer (res_body response)) =
      Returned (ArgsFull (Some error) body (res_headers response) true
                         (res_statusCode response)) /\
    err_class error = ErrorInfoObj /\
    shouldFallback error = false.

(** ** A platform and networks for the examples *)

Module Examples.

(** The double-quote character. *)
Definition dq : string := bytes [34%nat].

(** The body [{"ok":true}]. *)
Definition body_ok : Buffer := "{" +:+ dq +:+ "ok" +:+ dq +:+ ":true}".

(** The body [{"error":{"message":"m","code":40100,"statusCode":401}}]. *)
Definition body_error_401 : Buffer :=
  "{" +:+ dq +:+ "error" +:+ dq +:+ ":{" +:+ dq +:+ "message" +:+ dq +:+ ":"
  +:+ dq +:+ "m" +:+ dq +:+ "," +:+ dq +:+ "code" +:+ dq +:+ ":40100,"
  +:+ dq +:+ "statusCode" +:+ dq +:+ ":401}}".

(** A truncated JSON text. *)
Definition body_malformed : Buffer := "{" +:+ dq +:+ "error" +:+ dq +:+ ":".

Definition syntax_error : Err :=
  {| err_class := SyntaxError; err_message := "Unexpected end of JSON input";
     err_code := CodeUndefined; err_statusCode := None |}.

(** [JSON.parse] on the three bodies above, where it yields what the
    built-in yields; the examples give it nothing else. *)
Definition parse (v : JsValue) : Err + JsValue :=
  match v with
  | VBuffer b =>
      if String.eqb b body_ok then inr (VObj [("ok", VBool true)])
      else if String.eqb b body_error_401 then
        inr (VObj [("error", VObj [("message", VStr "m"); ("code", VNum 40100);
                                   ("statusCode", VNum 401)])])
      else inl syntax_error
  | _ => inl syntax_error
  end.

(** No example carries msgpack. *)
Definition unpack (v : JsValue) : Err + JsValue :=
  inl {| err_class := SyntaxError; err_message := "msgpack";
         err_code := CodeUndefined; err_statusCode := None |}.

(** Modelled from the spec: [ErrorInfo.fromValues], of
    common/lib/types/errorinfo, which is not under src/.  "a JSON error body
    ... decodes to an ErrorInfo with exactly those three fields": message,
    code and statusCode are taken from the payload. *)
Definition fromValues (values : JsValue) : Err :=
  let field name := match values with VObj fs => assoc name fs | _ => VUndefined end in
  {| err_class := ErrorInfoObj;
     err_message := match field "message" with VStr s => s | _ => "" end;
     err_code := match field "code" with
                 | VNum n => CodeNum n
                 | VStr s => CodeStr s
                 | _ => CodeUndefined
                 end;
     err_statusCode := match field "statusCode" with VNum n => Some n | _ => None end |}.

(** Modelled from the spec: the [Defaults] module, which is not under src/.
    "Otherwise return the configured default host followed by configured
    fallback hosts." *)
Definition getHosts (o : ClientOptions) : list Host := restHost o :: fallbackHosts o.
Definition getFallbackHosts (o : ClientOptions) : list Host := fallbackHosts o.

Definition platform : Platform :=
  {| JSON_parse := parse;
     msgpack_decode := unpack;
     Utils_inspect := fun v => match v with VBuffer b | VStr b => b | _ => "<value>" end;
     ErrorInfo_fromValues := fromValues;
     TypeError_message := fun _ name => "Cannot read property " +:+ name;
     Defaults_getHosts := getHosts;
     Defaults_getFallbackHosts := getFallbackHosts;
     Defaults_restAgentOptions := {| maxSockets := 40; keepAlive := true |};
     Defaults_TIMEOUTS := {| httpRequestTimeout := 10000; fallbackRetryTimeout := 600000 |};
     Defaults_internetUpUrl := "https://internet-up.example/is-the-internet-up.txt";
     baseUri := fun _ h => "https://" +:+ default "undefined" h +:+ ":443" |}.

Definition json_headers : Headers := {[ "content-type" := "application/json" ]}.

Definition response_ok : Response :=
  {| res_statusCode := 200; res_headers := json_headers; res_body := body_ok |}.

Definition response_401 : Response :=
  {| res_statusCode := 401; res_headers := json_headers; res_body := body_error_401 |}.

Definition response_404_malformed : Response :=
  {| res_statusCode := 404; res_headers := json_headers; res_body := body_malformed |}.

Definition response_503_json : Response :=
  {| res_statusCode := 503; res_headers := json_headers; res_body := body_ok |}.

Definition response_404_plain : Response :=
  {| res_statusCode := 404; res_headers := ∅; res_body := "not found" |}.

Definition response_503_plain : Response :=
  {| res_statusCode := 503; res_headers := ∅; res_body := "unavailable" |}.

Definition timed_out : Err :=
  {| err_class := TransportError; err_message := "Timeout awaiting request";
     err_code := CodeStr "ETIMEDOUT"; err_statusCode := None |}.

(** A network that answers the requests in order from a script; every
    answer takes 25 ms. *)
Definition scripted (script : list Settled) : Network :=
  fun n _ =>
    {| settled := nth n script (Rejected (OtherError timed_out)); latency := 25%N |}.

Definition client_options : ClientOptions :=
  {| restAgentOptions := None;
     timeouts := {| httpRequestTimeout := 10000; fallbackRetryTimeout := 600000 |};
     restHost := "A"; fallbackHosts := ["B"] |}.

(** A client with hosts [A, B] and nothing stored. *)
Definition client : Rest :=
  {| options := client_options; connection := None; _currentFallback := None |}.

Definition stored_B (validUntil : Z) : FallbackRecord :=
  {| host := Some "B"; validUntil := validUntil |}.

Definition world0 : World :=
  {| now := 1000; issued := []; Http_agent := None; agents_made := 0 |}.

(** Hosts [A, B]: A times out; B answers 404, 503, or 200 with
    [{"ok":true}]. *)
Definition net_timeout_then_404 : Network :=
  scripted [Rejected (OtherError timed_out); Rejected (HTTPError response_404_plain)].

Definition net_timeout_then_503 : Network :=
  scripted [Rejected (OtherError timed_out); Rejected (HTTPError response_503_plain)].

Definition net_timeout_then_ok : Network :=
  scripted [Rejected (OtherError timed_out); Fulfilled response_ok].

Definition net_ok : Network := scripted [Fulfilled response_ok].

Definition net_404 : Network := scripted [Rejected (HTTPError response_404_plain)].

Definition path : Path := PathString "/time".



End Examples.

(** ** More vocabulary for runs *)

(** The two forms a callback's arguments take: the bare error, or the five
    arguments with the error null exactly below status 300 and the flag set
    exactly from 300 on. *)
Definition args_shape (a : CallbackArgs) : Prop :=
  match a with
  | ArgsErr _ => True
  | ArgsFull err _ _ unpacked statusCode =>
      (err = None <-> statusCode < 300) /\ unpacked = (300 <=? statusCode)
  end.

(** [carries method headers body params rest o]: the request [o] was built
    from these arguments of [Http.do] and the client's request timeout; it
    has the body only when that passes [if (body)]. *)
Definition carries (method : Method) (headers : option Headers)
    (body : option Buffer) (params : option Params) (rest : Rest) (o : DoOptions)
  : Prop :=
  do_method o = method /\
  do_headers o = headers /\
  do_body o = body_if_truthy body /\
  do_searchParams o = params /\
  do_timeout_request o = httpRequestTimeout (timeouts (options rest)).


(** The host the first request of a dispatch goes to: the stored one while
    its record is valid, else the head of the resolved hosts (undefined
    when there are none). *)
Definition first_host (P : Platform) (rest : Rest) (w : World) : option Host :=
  match _currentFallback rest with
  | Some f => if now w <? validUntil f then host f else head (getHosts P rest)
  | None => head (getHosts P rest)
  end.

(** A client attached to the realtime host C, with hosts [A, B] configured. *)
Definition connected_client : Rest :=
  {| options := Examples.client_options;
     connection := Some {| connectionManager_host := Some "C" |};
     _currentFallback := None |}.

(** The up-check endpoint answering 404 with a truncated JSON body. *)
Definition net_404_malformed : Network :=
  Examples.scripted [Rejected (HTTPError Examples.response_404_malformed)].

(** * The build file: Gruntfile.js *)

Module Gruntfile.

(** [s.replace(/pat/, rep)] for a pattern and a replacement that are plain
    text: the leftmost occurrence of [pat] is replaced, and a string without
    one comes back unchanged. *)
Fixpoint replace_first (pat rep s : string) : string :=
  match strip_prefix pat s with
  | Some rest => rep +:+ rest
  | None =>
      match s with
      | EmptyString => EmptyString
      | String c s' => String c (replace_first pat rep s')
      end
  end.

Record CompilerSpec := { spec_src : string; spec_dest : string }.

(** [compilerSpec(src, dest)]; a missing [dest] and the empty string both
    fail [dest || ...]. *)
Definition compilerSpec (src : string) (dest : option string) : CompilerSpec :=
  {| spec_src := src;
     spec_dest :=
       match dest with
       | Some d => if String.eqb d "" then replace_first ".js" ".min.js" src else d
       | None => replace_first ".js" ".min.js" src
       end |}.

(** What the task 'release:ably-deploy' ends in. *)
Inductive Deploy :=
| Fatal (message : string)    (* grunt.fatal(message) *)
| Exec (cmd : string).        (* execExternal(cmd) *)

Section AblyDeploy.

(** [fs.statSync(p).isDirectory()], false also when [statSync] throws. *)
Context (isDirectory : string -> bool).

Definition maxTraverseDepth : nat := 3.

(** [infrastructureDirExists]: true, or undefined. *)
Definition infrastructureDirExists (infrastructurePath : string) : bool :=
  isDirectory infrastructurePath.

(** The [while] loop; the result is the path and [infrastructureFound] when
    the loop is left, [None] when [fuel] rounds were not enough. *)
Fixpoint search (fuel : nat) (infrastructurePath : string) : option (string * bool) :=
  match fuel with
  | O => None
  | S fuel =>
      if (String.length infrastructurePath
          <? String.length "infrastructure" + maxTraverseDepth * 3)%nat
      then
        if infrastructureDirExists infrastructurePath
        then Some (infrastructurePath, true)
        else search fuel ("../" +:+ infrastructurePath)
      else Some (infrastructurePath, false)
  end.

Definition ably_deploy (fuel : nat) (version : string) : option Deploy :=
  match search fuel "../infrastructure" with
  | None => None
  | Some (infrastructurePath, infrastructureFound) =>
      if negb infrastructureFound then
        Some (Fatal ("Infrastructure repo could not be found in any parent folders up to a folder depth of "
                     +:+ pretty (Z.of_nat maxTraverseDepth)))
      else
        Some (Exec ("cd " +:+ infrastructurePath
                    +:+ "; bundle exec ./bin/ably-env deploy javascript --version "
                    +:+ version))
  end.

End AblyDeploy.

End Gruntfile.

(** * The test fixture: test/browser-srv/framework/setup.js *)

Module Setup.

(** The fields of [testVars] that [createAccountAppAndKeys] reads or
    writes. *)
Record TestVars := {
  realtimeHost : JsValue;
  realtimePort : JsValue;
  testAcctId : JsValue;
  testAppId : JsValue;
  testKey0Id : JsValue;
  testKey0Value : JsValue;
  testKey0Str : JsValue
}.

(** [postOptions] and the data written to the request. *)
Record Post := {
  post_host : JsValue;
  post_port : JsValue;
  post_path : string;
  post_method : string;
  post_headers : list (string * JsValue);
  post_data : string
}.

(** What becomes of the request: an 'error' event, or a response that is
    read to its 'end', its 'data' chunks already decoded as utf8. *)
Inductive Exchange :=
| ErrorEvent (err : Err)
| Response (statusCode : Z) (chunks : list string).

(** What the caller's callback is invoked with. *)
Inductive Invoked :=
| WithNothing                  (* callback() *)
| WithMessage (message : string)
| WithError (err : Err).

(** How the call ends: the callback runs, or an exception leaves the 'end'
    handler and the callback never runs. *)
Inductive Ending :=
| Invokes (i : Invoked)
| Throws (exn : Err).

Section Fixture.

(** [P] gives [JSON.parse] and the engine's TypeError text;
    [Number_toString] is the engine's number formatting; [not_primitive]
    is the TypeError for an object that cannot be converted to a primitive
    value. *)
Context (P : Platform) (Number_toString : Z -> string) (not_primitive : Err).

(** [response.keys[0].name] for a name that no prototype defines.  On an
    array or a buffer [keys] is a method, and a function has no property 0;
    on the other primitives [keys] is undefined. *)
Definition key0 (response : JsValue) (name : string) : Err + JsValue :=
  match response with
  | VUndefined | VNull => inl (type_error P response "keys")
  | VBool _ | VNum _ | VStr _ => inl (type_error P VUndefined "0")
  | VArr _ | VBuffer _ => inl (type_error P VUndefined name)
  | VObj fields =>
      match assoc "keys" fields with
      | (VUndefined | VNull) as keys => inl (type_error P keys "0")
      | VBool _ | VNum _ => inl (type_error P VUndefined name)
      | VStr s | VBuffer s =>
          if String.eqb s "" then inl (type_error P VUndefined name)
          else inr VUndefined
      | VArr items =>
          match items with
          | [] => inl (type_error P VUndefined name)
          | first :: _ => get_property P first name
          end
      | VObj keys => get_property P (assoc "0" keys) name
      end
  end.

Definition has_own (name : string) (fields : list (string * JsValue)) : bool :=
  existsb (fun kv => String.eqb (fst kv) name) fields.

(** [v + '...']: the operand as a string.  An object without an own
    [toString] gives [object Object]; one with an own [toString], which in
    a parsed JSON text is never a function, cannot be converted.  An array
    joins its elements. *)
Fixpoint as_string (v : JsValue) : Err + string :=
  match v with
  | VUndefined => inr "undefined"
  | VNull => inr "null"
  | VBool b => inr (if b then "true" else "false")
  | VNum n => inr (Number_toString n)
  | VStr s => inr s
  | VBuffer b => inr b
  | VObj fields =>
      if has_own "toString" fields then inl not_primitive else inr "[object Object]"
  | VArr items =>
      match
        (fix elements (items : list JsValue) : Err + list string :=
           match items with
           | [] => inr []
           | item :: items' =>
               match (match item with
                      | VUndefined | VNull => inr ""
                      | _ => as_string item
                      end) with
               | inl exn => inl exn
               | inr s =>
                   match elements items' with
                   | inl exn => inl exn
                   | inr ss => inr (s :: ss)
                   end
               end
           end) items
      with
      | inl exn => inl exn
      | inr ss => inr (join "," ss)
      end
  end.

(** The 'end' handler. *)
Definition on_end (statusCode : Z) (response : string) (testVars : TestVars)
  : TestVars * Ending :=
  if 300 <=? statusCode then
    (testVars,
     Invokes (WithMessage ("Invalid HTTP request: " +:+ response
                           +:+ "; statusCode = " +:+ Number_toString statusCode)))
  else
    match JSON_parse P (VStr response) with
    | inl exn => (testVars, Throws exn)
    | inr response =>
      match get_property P response "accountId" with
      | inl exn => (testVars, Throws exn)
      | inr accountId =>
        let testVars :=
          {| realtimeHost := realtimeHost testVars; realtimePort := realtimePort testVars;
             testAcctId := accountId; testAppId := testAppId testVars;
             testKey0Id := testKey0Id testVars; testKey0Value := testKey0Value testVars;
             testKey0Str := testKey0Str testVars |} in
        match get_property P response "id" with
        | inl exn => (testVars, Throws exn)
        | inr id =>
          let testVars :=
            {| realtimeHost := realtimeHost testVars; realtimePort := realtimePort testVars;
               testAcctId := testAcctId testVars; testAppId := id;
               testKey0Id := testKey0Id testVars; testKey0Value := testKey0Value testVars;
               testKey0Str := testKey0Str testVars |} in
          match key0 response "id" with
          | inl exn => (testVars, Throws exn)
          | inr key_id =>
            let testVars :=
              {| realtimeHost := realtimeHost testVars; realtimePort := realtimePort testVars;
                 testAcctId := testAcctId testVars; testAppId := testAppId testVars;
                 testKey0Id := key_id; testKey0Value := testKey0Value testVars;
                 testKey0Str := testKey0Str testVars |} in
            match key0 response "value" with
            | inl exn => (testVars, Throws exn)
            | inr key_value =>
              let testVars :=
                {| realtimeHost := realtimeHost testVars; realtimePort := realtimePort testVars;
                   testAcctId := testAcctId testVars; testAppId := testAppId testVars;
                   testKey0Id := testKey0Id testVars; testKey0Value := key_value;
                   testKey0Str := testKey0Str testVars |} in
              match as_string id, as_string key_id, as_string key_value with
              | inr s_id, inr s_key_id, inr s_key_value =>
                  ({| realtimeHost := realtimeHost testVars;
                      realtimePort := realtimePort testVars;
                      testAcctId := testAcctId testVars; testAppId := testAppId testVars;
                      testKey0Id := testKey0Id testVars;
                      testKey0Value := testKey0Value testVars;
                      testKey0Str :=
                        VStr (s_id +:+ "." +:+ s_key_id +:+ ":" +:+ s_key_value) |},
                   Invokes WithNothing)
              | inl exn, _, _ => (testVars, Throws exn)
              | _, inl exn, _ => (testVars, Throws exn)
              | _, _, inl exn => (testVars, Throws exn)
              end
            end
          end
        end
      end
    end.

Definition postData : string :=
  "{ " +:+ Examples.dq +:+ "keys" +:+ Examples.dq +:+ ": [ {} ] }".

Definition postOptions (testVars : TestVars) : Post :=
  {| post_host := realtimeHost testVars;
     post_port := realtimePort testVars;
     post_path := "/apps";
     post_method := "POST";
     post_headers :=
       [("Content-Type", VStr "application/json");
        ("Content-Length", VNum (Z.of_nat (String.length postData)))];
     post_data := postData |}.

(** [createAccountAppAndKeys(testVars, callback)], the server answering
    the request through [server]. *)
Definition createAccountAppAndKeys (server : Post -> Exchange) (testVars : TestVars)
  : TestVars * Ending :=
  match server (postOptions testVars) with
  | ErrorEvent err => (testVars, Invokes (WithError err))
  | Response statusCode chunks =>
      on_end statusCode (fold_left (fun response chunk => response +:+ chunk) chunks "")
             testVars
  end.

End Fixture.

End Setup.

(** A platform and servers for the examples of the fixture. *)
Module SetupExamples.

(** The body [{"accountId":"acct","id":"app","keys":[{"id":"k0","value":"secret"}]}]. *)
Definition body_app : string :=
  let q := Examples.dq in
  "{" +:+ q +:+ "accountId" +:+ q +:+ ":" +:+ q +:+ "acct" +:+ q +:+ ","
  +:+ q +:+ "id" +:+ q +:+ ":" +:+ q +:+ "app" +:+ q +:+ ","
  +:+ q +:+ "keys" +:+ q +:+ ":[{" +:+ q +:+ "id" +:+ q +:+ ":" +:+ q +:+ "k0" +:+ q
  +:+ "," +:+ q +:+ "value" +:+ q +:+ ":" +:+ q +:+ "secret" +:+ q +:+ "}]}".

(** The body [{"accountId":"acct","id":"app"}]. *)
Definition body_no_keys : string :=
  let q := Examples.dq in
  "{" +:+ q +:+ "accountId" +:+ q +:+ ":" +:+ q +:+ "acct" +:+ q +:+ ","
  +:+ q +:+ "id" +:+ q +:+ ":" +:+ q +:+ "app" +:+ q +:+ "}".

(** [JSON.parse] on the two bodies above, where it yields what the built-in
    yields; the examples give it nothing else. *)
Definition parse (v : JsValue) : Err + JsValue :=
  match v with
  | VStr s =>
      if String.eqb s body_app then
        inr (VObj [("accountId", VStr "acct"); ("id", VStr "app");
                   ("keys", VArr [VObj [("id", VStr "k0"); ("value", VStr "secret")]])])
      else if String.eqb s body_no_keys then
        inr (VObj [("accountId", VStr "acct"); ("id", VStr "app")])
      else inl Examples.syntax_error
  | _ => inl Examples.syntax_error
  end.

Definition platform : Platform :=
  {| JSON_parse := parse;
     msgpack_decode := msgpack_decode Examples.platform;
     Utils_inspect := Utils_inspect Examples.platform;
     ErrorInfo_fromValues := ErrorInfo_fromValues Examples.platform;
     TypeError_message := TypeError_message Examples.platform;
     Defaults_getHosts := Defaults_getHosts Examples.platform;
     Defaults_getFallbackHosts := Defaults_getFallbackHosts Examples.platform;
     Defaults_restAgentOptions := Defaults_restAgentOptions Examples.platform;
     Defaults_TIMEOUTS := Defaults_TIMEOUTS Examples.platform;
     Defaults_internetUpUrl := Defaults_internetUpUrl Examples.platform;
     baseUri := baseUri Examples.platform |}.

Definition not_primitive : Err :=
  {| err_class := TypeError; err_message := "Cannot convert object to primitive value";
     err_code := CodeUndefined; err_statusCode := None |}.

Definition vars0 : Setup.TestVars :=
  {| Setup.realtimeHost := VStr "sandbox"; Setup.realtimePort := VNum 443;
     Setup.testAcctId := VUndefined; Setup.testAppId := VUndefined;
     Setup.testKey0Id := VUndefined; Setup.testKey0Value := VUndefined;
     Setup.testKey0Str := VUndefined |}.

(** The body arrives in two chunks. *)
Definition server_ok : Setup.Post -> Setup.Exchange :=
  fun _ => Setup.Response 201 [substring 0 20 body_app;
                               substring 20 (String.length body_app - 20) body_app].

Definition server_no_keys : Setup.Post -> Setup.Exchange :=
  fun _ => Setup.Response 200 [body_no_keys].

Definition server_500 : Setup.Post -> Setup.Exchange :=
  fun _ => Setup.Response 500 ["oops"].

End SetupExamples.

(** * Properties *)

(** ** The retryability test *)

Lemma code_is_true code lit : code_is code lit = true <-> code = CodeStr lit.
Proof.
  destruct code as [|s|n]; simpl; split; try discriminate.
  - intros H. apply String.eqb_eq in H. now subst.
  - intros H. injection H as ->. apply String.eqb_refl.
Qed.

Lemma status_between_true sc lo hi :
  status_between sc lo hi = true <-> exists n, sc = Some n /\ lo <= n <= hi.
Proof.
  destruct sc as [n|]; simpl.
  - rewrite andb_true_iff, !Z.leb_le. split.
    + intros H. exists n. split; [reflexivity | lia].
    + intros (m & Hm & Hr). injection Hm as ->. lia.
  - split; [discriminate | intros (m & Hm & _); discriminate].
Qed.

Lemma network_failure_iff code :
  network_failure code <->
  code_is code "ENETUNREACH" || code_is code "EHOSTUNREACH" ||
  code_is code "EHOSTDOWN" || code_is code "ETIMEDOUT" ||
  code_is code "ESOCKETTIMEDOUT" || code_is code "ENOTFOUND" ||
  code_is code "ECONNRESET" || code_is code "ECONNREFUSED" = true.
Proof.
  rewrite !orb_true_iff, !code_is_true. unfold network_failure. split.
  - intros (s & -> & Hin). simpl in Hin.
    repeat (destruct Hin as [<- | Hin]; [tauto |]). contradiction.
  - intros H.
    repeat (destruct H as [H | H]);
      (eexists; split; [exact H | simpl; tauto]).
Qed.

Lemma shouldFallback_spec err :
  shouldFallback err = true <-> retryable_by_spec err.
Proof.
  unfold shouldFallback, retryable_by_spec.
  rewrite orb_true_iff, status_between_true, <- network_failure_iff.
  reflexivity.
Qed.

(** ** The executor *)

Section Executor.

Context (P : Platform) (net : Network).

Lemma ensure_agent_fst agentOptions w agents :
  Http_agent w = Some agents -> ensure_agent agentOptions w = (agents, w).
Proof. unfold ensure_agent. now intros ->. Qed.

Lemma ensure_agent_fresh agentOptions w :
  Http_agent w = None ->
  ensure_agent agentOptions w =
    (let agents :=
       {| agent_http := {| agent_id := agents_made w; agent_options := agentOptions |};
          agent_https := {| agent_id := S (agents_made w); agent_options := agentOptions |} |} in
     (agents,
      {| now := now w; issued := issued w; Http_agent := Some agents;
         agents_made := S (S (agents_made w)) |})).
Proof. unfold ensure_agent. now intros ->. Qed.

(** One call of [doUri] sends one request, built from the arguments and the
    shared agents, and comes to whatever the network's answer is classified
    as. *)
Lemma doUri_spec method rest uri headers body params w :
  let o := doOptions_of P method rest uri headers body params w in
  let n := length (issued w) in
  doUri P net method rest uri headers body params w =
    (completion_of P net n o,
     {| now := now w + Z.of_N (latency (net n o));
        issued := (issued w ++ [o])%list;
        Http_agent := Some (do_agent o);
        agents_made := match Http_agent w with
                       | Some _ => agents_made w
                       | None => S (S (agents_made w))
                       end |}).
Proof.
  unfold doUri, doOptions_of, completion_of, got, caller_agentOptions.
  destruct (Http_agent w) as [agents|] eqn:E.
  - rewrite (ensure_agent_fst _ _ _ E). simpl. now rewrite E.
  - rewrite (ensure_agent_fresh _ _ E). simpl. reflexivity.
Qed.

End Executor.

(** ** The attempt sequence *)

Section Attempts.

Context (P : Platform) (net : Network).
Context (method : Method) (path : Path) (headers : option Headers)
        (body : option Buffer) (params : option Params).

Local Abbreviation tryAHost := (tryAHost P net method path headers body params).
Local Abbreviation attempt rest h w :=
  (doUri P net method (Some rest) (uriFromHost P path rest h) headers body params w).
Local Abbreviation Run := (Run P net path).

(** The body of [tryAHost], with the array after [shift()] written as the
    tail. *)
Lemma tryAHost_eq hosts persist rest w :
  tryAHost hosts persist rest w =
    let '(c, w1) := attempt rest (head hosts) w in
    match c with
    | Unhandled exn => (Unhandled exn, rest, w1)
    | Called a =>
        if err_and_shouldFallback a && negb (Nat.eqb (length (tail hosts)) 0)
        then tryAHost (tail hosts) true rest w1
        else persist_and_deliver (head hosts) persist a rest w1
    end.
Proof.
  destruct hosts as [|h [|h2 t]]; simpl;
    destruct (doUri _ _ _ _ _ _ _ _ _) as [[a|exn] w1]; try reflexivity;
    now rewrite ?andb_false_r, ?andb_true_r.
Qed.

Lemma Run_nonempty rest n hs os c : Run rest n hs os c -> hs <> [] /\ length os = length hs.
Proof.
  induction 1 as [|? ? ? ? ? ? ? ? ? ? ? [_ IH]]; split; simpl; congruence.
Qed.

Lemma attempt_issued rest h w :
  exists o,
    do_url o = uriFromHost P path rest h /\
    attempt rest h w = (completion_of P net (length (issued w)) o, snd (attempt rest h w)) /\
    issued (snd (attempt rest h w)) = (issued w ++ [o])%list.
Proof.
  eexists. rewrite doUri_spec. simpl. repeat split; reflexivity.
Qed.

(** What a run of [tryAHost] looks like: it goes through a prefix of the
    candidates, stops at the first attempt that does not fail retryably or
    at the last candidate, and writes the record exactly when
    [persistOnSuccess] was set or an earlier host had been tried. *)
Lemma tryAHost_run hosts : forall persist rest w c rest' w',
  tryAHost hosts persist rest w = (c, rest', w') ->
  exists hs h os,
    Run rest (length (issued w)) hs os c /\
    hs `prefix_of` candidates hosts /\
    last hs = Some h /\
    issued w' = (issued w ++ os)%list /\
    match c with
    | Called a =>
        (err_and_shouldFallback a = false \/ hs = candidates hosts) /\
        rest' = if persist || (1 <? length hs)%nat
                then set_currentFallback rest (Some (record_for rest h w'))
                else rest
    | Unhandled _ => rest' = rest
    end.
Proof.
  induction hosts as [|h1 t IH]; intros persist rest w c rest' w' H.
  - simpl in H. destruct (attempt_issued rest None w) as (o & Hurl & Hc & Hi).
    rewrite Hc in H.
    destruct (completion_of P net (length (issued w)) o) as [a|exn] eqn:E;
      injection H as <- <- <-;
      exists [None], None, [o]; (split; [now constructor|]);
      (split; [reflexivity|]); (split; [reflexivity|]); (split; [exact Hi|]).
    + split; [now right|]. now rewrite orb_false_r.
    + reflexivity.
  - rewrite tryAHost_eq in H. cbn [head tail] in H.
    destruct (attempt_issued rest (Some h1) w) as (o & Hurl & Hc & Hi).
    rewrite Hc in H.
    destruct (completion_of P net (length (issued w)) o) as [a|exn] eqn:E.
    + destruct (err_and_shouldFallback a && negb (Nat.eqb (length t) 0)) eqn:Eretry.
      * apply andb_true_iff in Eretry as [Eretry Ht].
        apply IH in H as (hs & h & os & HRun & Hpre & Hlast & Hiss & Hc').
        destruct (Run_nonempty _ _ _ _ _ HRun) as [Hne Hlen].
        exists (Some h1 :: hs), h, (o :: os).
        split.
        { eapply Run_retry; eauto.
          rewrite Hi, length_app in HRun. simpl in HRun.
          now replace (S (length (issued w))) with (length (issued w) + 1)%nat by lia. }
        split.
        { destruct t as [|h2 t']; [discriminate|].
          destruct Hpre as [k Hk]. exists k. simpl in *. now rewrite Hk. }
        split.
        { destruct hs; [congruence | exact Hlast]. }
        split.
        { rewrite Hiss, Hi, <- app_assoc. reflexivity. }
        destruct c as [a'|exn]; [|exact Hc'].
        destruct Hc' as [Hstop Hrest]. split.
        { destruct Hstop as [Hstop | Hstop]; [now left | right].
          destruct t as [|h2 t']; [discriminate|]. simpl in *. now rewrite Hstop. }
        { rewrite Hrest. simpl.
          destruct hs as [|? hs']; [congruence|]. simpl.
          now rewrite orb_true_r. }
      * unfold persist_and_deliver in H. injection H as <- <- <-.
        exists [Some h1], (Some h1), [o].
        split; [now constructor|].
        split; [destruct t; [reflexivity | now exists (map Some (h :: t))]|].
        split; [reflexivity|].
        split; [exact Hi|].
        split.
        { apply andb_false_iff in Eretry as [Eretry | Eretry]; [now left | right].
          destruct t; [reflexivity | discriminate]. }
        { simpl. rewrite orb_false_r. destruct persist; reflexivity. }
    + injection H as <- <- <-.
      exists [Some h1], (Some h1), [o].
      split; [now constructor|].
      split; [destruct t; [reflexivity | now exists (map Some (h :: t))]|].
      split; [reflexivity|].
      split; [exact Hi | reflexivity].
Qed.

End Attempts.

(** ** The dispatcher *)

Section Dispatcher.

Context (P : Platform) (net : Network).
Context (method : Method) (path : Path) (headers : option Headers)
        (body : option Buffer) (params : option Params).

Local Abbreviation tryAHost := (tryAHost P net method path headers body params).
Local Abbreviation normal_sequence :=
  (normal_sequence P net method path headers body params).
Local Abbreviation do_ := (do_ P net method path headers body params).
Local Abbreviation attempt rest h w :=
  (doUri P net method (Some rest) (uriFromHost P path rest h) headers body params w).
Local Abbreviation Run := (Run P net path).

Lemma uriFromHost_set rest f h :
  uriFromHost P path (set_currentFallback rest f) h = uriFromHost P path rest h.
Proof. reflexivity. Qed.

Lemma getHosts_set rest f : getHosts P (set_currentFallback rest f) = getHosts P rest.
Proof. reflexivity. Qed.

Lemma do_cold fuel rest w :
  _currentFallback rest = None ->
  do_ (S fuel) rest w = Some (normal_sequence rest w).
Proof. simpl. now intros ->. Qed.

Lemma do_expired fuel rest w f :
  _currentFallback rest = Some f -> validUntil f <= now w ->
  do_ (S fuel) rest w = Some (normal_sequence (set_currentFallback rest None) w).
Proof.
  simpl. intros -> Hexp.
  destruct (Z.ltb_spec (now w) (validUntil f)); [lia | reflexivity].
Qed.

Lemma do_stored fuel rest w f :
  _currentFallback rest = Some f -> now w < validUntil f ->
  do_ (S fuel) rest w =
    let '(c, w1) := attempt rest (host f) w in
    match c with
    | Unhandled exn => Some (Unhandled exn, rest, w1)
    | Called a =>
        if err_and_shouldFallback a
        then do_ fuel (set_currentFallback rest None) w1
        else Some (Called a, rest, w1)
    end.
Proof.
  simpl. intros -> Hlive.
  destruct (Z.ltb_spec (now w) (validUntil f)); [reflexivity | lia].
Qed.

(** Two entries are all [Http.do] ever makes: with fuel for two it returns,
    and more fuel changes nothing. *)
Lemma do_enough_fuel fuel rest w :
  do_ 2 rest w <> None /\ do_ (S (S fuel)) rest w = do_ 2 rest w.
Proof.
  destruct (_currentFallback rest) as [f|] eqn:Ef.
  - destruct (Z.ltb_spec (now w) (validUntil f)) as [Hlive | Hexp].
    + rewrite !(do_stored _ _ _ _ Ef Hlive).
      destruct (doUri _ _ _ _ _ _ _ _ _) as [[a|exn] w1]; [|split; congruence].
      destruct (err_and_shouldFallback a); [|split; congruence].
      rewrite !do_cold by reflexivity. split; congruence.
    + rewrite !(do_expired _ _ _ _ Ef Hexp). split; congruence.
  - rewrite !do_cold by exact Ef. split; congruence.
Qed.

(** The normal sequence sends at least one request and at most one per
    resolved host. *)
Lemma normal_sequence_issued rest w c rest' w' :
  normal_sequence rest w = (c, rest', w') ->
  exists os,
    issued w' = (issued w ++ os)%list /\
    (1 <= length os <= Nat.max 1 (length (getHosts P rest)))%nat.
Proof.
  unfold normal_sequence. destruct (Nat.eqb_spec (length (getHosts P rest)) 1) as [E1|E1].
  - rewrite doUri_spec. intros H. injection H as <- <- <-.
    eexists. split; [reflexivity|]. simpl. lia.
  - intros H. apply tryAHost_run in H as (hs & h & os & HRun & [k Hk] & _ & Hiss & _).
    exists os. split; [exact Hiss|].
    destruct (Run_nonempty _ _ _ _ _ _ _ _ HRun) as [Hne Hlen].
    assert (length (candidates (getHosts P rest)) = Nat.max 1 (length (getHosts P rest))) as Hc.
    { unfold candidates. destruct (getHosts P rest); simpl; [reflexivity|].
      now rewrite length_map. }
    rewrite <- Hc, Hk, length_app, Hlen.
    destruct hs; [congruence | simpl; lia].
Qed.

End Dispatcher.

(** ** The response classifier *)

Section Classifier.

Context (P : Platform).

Lemma handler_below_300 response body :
  res_statusCode response < 300 ->
  handler P None (Some response) body =
    Returned (ArgsFull None body (res_headers response) false (res_statusCode response)).
Proof.
  intros H. unfold handler.
  destruct (Z.leb_spec 300 (res_statusCode response)); [lia | reflexivity].
Qed.

Lemma handler_from_300 response body :
  300 <= res_statusCode response ->
  handler P None (Some response) body =
    match decode_declared P (res_headers response !! "content-type") body with
    | inl exn => Thrown exn
    | inr body =>
        match get_property P body "error" with
        | inl exn => Thrown exn
        | inr body_error =>
            Returned
              (ArgsFull
                 (Some (if truthy body_error then ErrorInfo_fromValues P body_error
                        else new_ErrorInfo
                               (error_message P (res_headers response)
                                              (res_statusCode response) body)
                               (header_code (res_headers response))
                               (res_statusCode response)))
                 body (res_headers response) true (res_statusCode response))
        end
    end.
Proof.
  intros H. unfold handler.
  destruct (Z.leb_spec 300 (res_statusCode response)); [reflexivity | lia].
Qed.

Lemma handler_err err response body :
  handler P (Some err) response body = Returned (ArgsErr err).
Proof. reflexivity. Qed.

Lemma shouldFallback_new_ErrorInfo message code statusCode :
  shouldFallback (new_ErrorInfo message code statusCode) = false <->
  ~ network_failure code /\ ~ 500 <= statusCode <= 504.
Proof.
  rewrite <- not_true_iff_false, shouldFallback_spec.
  unfold retryable_by_spec, server_failure. simpl. split.
  - intros H. split; intros H'; apply H; [now left | right; eauto].
  - intros [H1 H2] [H | (n & Hn & Hr)]; [tauto|]. injection Hn as ->. tauto.
Qed.

End Classifier.

(** ** The claims *)

(** C2: [shouldFallback] returns true exactly for the errors whose code is
    one of the eight recognised network-failure codes or whose status code
    lies in [500, 504].  In particular a status of 404 or 401 never makes an
    error retryable: such an error is classified non-retryable unless its
    code is itself a network-failure code. *)
Theorem C2_shouldFallback_classification (err : Err) :
  (shouldFallback err = true <->
     network_failure (err_code err) \/ server_failure (err_statusCode err)) /\
  (err_statusCode err = Some 404 \/ err_statusCode err = Some 401 ->
     ~ network_failure (err_code err) -> shouldFallback err = false).
Proof.
  split; [apply shouldFallback_spec|].
  intros Hs Hc. apply not_true_iff_false. rewrite shouldFallback_spec.
  intros [H | (n & Hn & Hr)]; [tauto|].
  destruct Hs as [Hs | Hs]; rewrite Hs in Hn; injection Hn as <-; lia.
Qed.

Lemma C2_shouldFallback_classification_witness :
  shouldFallback (new_ErrorInfo "Not found" CodeUndefined 404) = false /\
  shouldFallback (new_ErrorInfo "Unauthorized" (CodeNum 40100) 401) = false.
Proof.
  split.
  - apply (proj2 (C2_shouldFallback_classification
                    (new_ErrorInfo "Not found" CodeUndefined 404))).
    + left. reflexivity.
    + intros (s & Hs & _). discriminate Hs.
  - apply (proj2 (C2_shouldFallback_classification
                    (new_ErrorInfo "Unauthorized" (CodeNum 40100) 401))).
    + right. reflexivity.
    + intros (s & Hs & _). discriminate Hs.
Defined.

(** C3, as the code has it: for every response with statusCode < 300 the
    classifier calls back with (null, body, headers, false, statusCode)
    where body is the body it was given, untouched; [doUri] gives it the raw
    buffer of the response, so that is what the caller receives, whatever
    content type is declared. *)
Theorem C3_success_body_is_not_decoded (P : Platform) (response : Response)
    (body : JsValue) :
  res_statusCode response < 300 ->
  handler P None (Some response) body =
    Returned (ArgsFull None body (res_headers response) false
                       (res_statusCode response)) /\
  settle P (Fulfilled response) =
    Called (ArgsFull None (VBuffer (res_body response)) (res_headers response)
                     false (res_statusCode response)).
Proof.
  intros H. split; [now apply handler_below_300|].
  unfold settle, on_then. now rewrite handler_below_300.
Qed.

Lemma C3_success_body_is_not_decoded_witness :
  handler Examples.platform None (Some Examples.response_ok)
          (VBuffer Examples.body_ok) =
    Returned (ArgsFull None (VBuffer Examples.body_ok) Examples.json_headers
                       false 200) /\
  settle Examples.platform (Fulfilled Examples.response_ok) =
    Called (ArgsFull None (VBuffer Examples.body_ok) Examples.json_headers
                     false 200).
Proof.
  apply (C3_success_body_is_not_decoded Examples.platform Examples.response_ok
           (VBuffer Examples.body_ok)).
  simpl. lia.
Defined.

(** C3 as stated fails: the 200 response declaring application/json with
    body [{"ok":true}] decodes to the object {ok: true}, yet the classifier
    hands over the undecoded buffer. *)
Lemma C3_counterexample :
  res_statusCode Examples.response_ok < 300 /\
  decode_declared Examples.platform
    (res_headers Examples.response_ok !! "content-type")
    (VBuffer (res_body Examples.response_ok)) = inr (VObj [("ok", VBool true)]) /\
  ~ success_with_decoded_body Examples.platform Examples.response_ok.
Proof.
  split; [simpl; lia|]. split; [vm_compute; reflexivity|].
  intros (decoded & Hd & Hh).
  vm_compute in Hd. injection Hd as <-.
  rewrite handler_below_300 in Hh by (simpl; lia).
  discriminate Hh.
Qed.

(** C6, as the code has it by design: for a response with statusCode >= 300
    whose body decodes, for its declared content type, to a value other than
    null or undefined, the classifier throws nothing and the caller's
    callback gets (error, decoded body, headers, true, statusCode), after a
    fulfilled request as after an HTTPError; error is the body's [error]
    payload turned into an ErrorInfo when the payload is truthy, and
    otherwise an ErrorInfo made of the x-ably-errormessage header (or the
    generic message), the x-ably-errorcode header and the status code.  That
    error is not always non-retryable: it is non-retryable exactly when the
    header is not a network-failure code and the status is outside
    [500, 504], so a server error of 500 to 504 stays retryable.  Nothing is
    said here about a body that is malformed for its declared type. *)
Theorem C6_error_response_classification (P : Platform) (response : Response) :
  300 <= res_statusCode response ->
  let raw := VBuffer (res_body response) in
  let headers := res_headers response in
  let statusCode := res_statusCode response in
  forall decoded payload,
    decode_declared P (headers !! "content-type") raw = inr decoded ->
    get_property P decoded "error" = inr payload ->
    exists error,
      handler P None (Some response) raw =
        Returned (ArgsFull (Some error) decoded headers true statusCode) /\
      settle P (Rejected (HTTPError response)) =
        Called (ArgsFull (Some error) decoded headers true statusCode) /\
      settle P (Fulfilled response) =
        Called (ArgsFull (Some error) decoded headers true statusCode) /\
      (truthy payload = true -> error = ErrorInfo_fromValues P payload) /\
      (truthy payload = false ->
         error = new_ErrorInfo (error_message P headers statusCode decoded)
                               (header_code headers) statusCode /\
         err_class error = ErrorInfoObj /\
         (shouldFallback error = false <->
            ~ network_failure (header_code headers) /\
            ~ 500 <= statusCode <= 504)).
Proof.
  intros H raw headers statusCode decoded payload Hd Hp. eexists.
  assert (handler P None (Some response) raw =
            Returned (ArgsFull
                        (Some (if truthy payload then ErrorInfo_fromValues P payload
                               else new_ErrorInfo
                                      (error_message P headers statusCode decoded)
                                      (header_code headers) statusCode))
                        decoded headers true statusCode)) as Hh.
  { rewrite handler_from_300 by exact H. fold raw headers.
    rewrite Hd, Hp. reflexivity. }
  split; [exact Hh|].
  split; [unfold settle, on_catch; fold raw; now rewrite Hh|].
  split; [unfold settle, on_then; fold raw; now rewrite Hh|].
  split; intros Ht; rewrite Ht; [reflexivity|].
  split; [reflexivity|]. split; [reflexivity|].
  apply shouldFallback_new_ErrorInfo.
Qed.

Lemma C6_error_response_classification_witness :
  exists error,
    handler Examples.platform None (Some Examples.response_401)
            (VBuffer Examples.body_error_401) =
      Returned
        (ArgsFull (Some error)
           (VObj [("error", VObj [("message", VStr "m"); ("code", VNum 40100);
                                  ("statusCode", VNum 401)])])
           Examples.json_headers true 401) /\
    error = {| err_class := ErrorInfoObj; err_message := "m";
               err_code := CodeNum 40100; err_statusCode := Some 401 |}.
Proof.
  destruct (C6_error_response_classification Examples.platform
              Examples.response_401 ltac:(simpl; lia)
              (VObj [("error", VObj [("message", VStr "m"); ("code", VNum 40100);
                                     ("statusCode", VNum 401)])])
              (VObj [("message", VStr "m"); ("code", VNum 40100);
                     ("statusCode", VNum 401)])
              ltac:(vm_compute; reflexivity) ltac:(reflexivity))
    as (error & Hh & _ & _ & Hpayload & _).
  exists error. split; [exact Hh|].
  rewrite (Hpayload ltac:(reflexivity)). reflexivity.
Defined.

(** C6 as stated fails.  By design, a 503 response with a well-formed JSON
    body is handed back as an ErrorInfo that is retryable, not as a
    non-retryable one (second part).  And where the body is truncated (first
    part, a 404 declaring application/json) the decoder throws inside the
    classifier and, after an HTTPError, nothing delivers that to the caller:
    here the two paths of [doUri] part ways, the fulfilled one passing the
    same exception to the callback ([decoder_exception_two_paths]). *)
Lemma C6_counterexample :
  (300 <= res_statusCode Examples.response_404_malformed /\
   declares_json_or_msgpack Examples.response_404_malformed /\
   handler Examples.platform None (Some Examples.response_404_malformed)
           (VBuffer (res_body Examples.response_404_malformed)) =
     Thrown Examples.syntax_error /\
   settle Examples.platform (Rejected (HTTPError Examples.response_404_malformed)) =
     Unhandled Examples.syntax_error /\
   ~ handed_back_as_application_error Examples.platform
       Examples.response_404_malformed) /\
  (300 <= res_statusCode Examples.response_503_json /\
   declares_json_or_msgpack Examples.response_503_json /\
   ~ handed_back_as_application_error Examples.platform
       Examples.response_503_json).
Proof.
  split.
  - split; [simpl; lia|]. split; [left; vm_compute; reflexivity|].
    split; [vm_compute; reflexivity|]. split; [vm_compute; reflexivity|].
    intros (error & body & Hh & _). vm_compute in Hh. discriminate Hh.
  - split; [simpl; lia|]. split; [left; vm_compute; reflexivity|].
    intros (error & body & Hh & _ & Hnr). vm_compute in Hh.
    injection Hh as <- _. vm_compute in Hnr. discriminate Hnr.
Qed.

(** Where a decoder's exception goes: thrown while classifying a fulfilled
    request it is caught and passed to the callback; thrown while
    classifying the response of an HTTPError it is caught by nothing. *)
Lemma decoder_exception_two_paths (P : Platform) (response : Response) exn :
  handler P None (Some response) (VBuffer (res_body response)) = Thrown exn ->
  settle P (Fulfilled response) = Called (ArgsErr exn) /\
  settle P (Rejected (HTTPError response)) = Unhandled exn.
Proof.
  intros Hh. unfold settle, on_then, on_catch. rewrite Hh. split; reflexivity.
Qed.

Section DispatcherClaims.

Context (P : Platform) (net : Network).
Context (method : Method) (path : Path) (headers : option Headers)
        (body : option Buffer) (params : option Params).

Local Abbreviation tryAHost := (tryAHost P net method path headers body params).
Local Abbreviation normal_sequence :=
  (normal_sequence P net method path headers body params).
Local Abbreviation do_ := (do_ P net method path headers body params).
Local Abbreviation attempt rest h w :=
  (doUri P net method (Some rest) (uriFromHost P path rest h) headers body params w).
Local Abbreviation Run := (Run P net path).

(** In a run, the request in position [j] went to the host in position
    [j]; it failed retryably unless it is the last one, and the last one
    came to the run's outcome. *)
Lemma Run_lookup rest n hs os c :
  Run rest n hs os c ->
  forall j o,
    os !! j = Some o ->
    exists h,
      hs !! j = Some h /\
      do_url o = uriFromHost P path rest h /\
      ((S j < length os)%nat ->
       exists a, completion_of P net (n + j) o = Called a /\
                 err_and_shouldFallback a = true) /\
      ((S j = length os)%nat -> completion_of P net (n + j) o = c).
Proof.
  induction 1 as [n h o c Hurl Hc | n h o a hs os c Hurl Hc Hretry HRun IH];
    intros j o' Hj.
  - destruct j as [|j]; [|discriminate]. injection Hj as <-.
    exists h. split; [reflexivity|]. split; [exact Hurl|]. cbn. split; [lia|].
    intros _. now rewrite Nat.add_0_r.
  - destruct (Run_nonempty _ _ _ _ _ _ _ _ HRun) as [Hne Hlen].
    destruct j as [|j].
    + injection Hj as <-. exists h. split; [reflexivity|]. split; [exact Hurl|].
      split.
      * intros _. exists a. rewrite Nat.add_0_r. now split.
      * cbn. destruct os; [destruct hs; [congruence | discriminate]|]. cbn. lia.
    + cbn in Hj. destruct (IH _ _ Hj) as (h' & Hh' & Hurl' & Hmid & Hend).
      exists h'. split; [exact Hh'|]. split; [exact Hurl'|].
      replace (n + S j)%nat with (S n + j)%nat by lia.
      split; intros Hlt; [apply Hmid | apply Hend]; cbn in Hlt; lia.
Qed.

(** C5: every run of the attempt sequence, whatever it ends in, goes
    through a prefix [hs] of the candidate hosts, one request per host.
    Whenever a request to a host that is not the last candidate has its
    callback run with a retryable error, the next request of the run goes
    to the next candidate: that error is never what the caller gets.  The
    outcome of the run is the outcome of its last request, so an error
    handed to the caller is exactly the last attempt's error; and it is
    non-retryable, with no request made after it, or [hs] is the whole
    candidate list. *)
Theorem C5_retryable_error_moves_to_next_host hosts persistOnSuccess rest w :
  exists c rest' w' hs os,
    tryAHost hosts persistOnSuccess rest w = (c, rest', w') /\
    Run rest (length (issued w)) hs os c /\
    hs `prefix_of` candidates hosts /\
    issued w' = (issued w ++ os)%list /\
    (forall i o a,
       os !! i = Some o ->
       completion_of P net (length (issued w) + i) o = Called a ->
       err_and_shouldFallback a = true ->
       (S i < length (candidates hosts))%nat ->
       exists o' h',
         os !! S i = Some o' /\
         candidates hosts !! S i = Some h' /\
         do_url o' = uriFromHost P path rest h') /\
    (exists o,
       last os = Some o /\
       completion_of P net (length (issued w) + pred (length os)) o = c) /\
    match c with
    | Called a =>
        forall err, args_err a = Some err ->
                    shouldFallback err = false \/ hs = candidates hosts
    | Unhandled _ => True
    end.
Proof.
  destruct (tryAHost hosts persistOnSuccess rest w) as [[c rest'] w'] eqn:H.
  exists c, rest', w'.
  apply tryAHost_run in H as (hs & h & os & HRun & Hpre & _ & Hiss & Hstop).
  exists hs, os. split; [reflexivity|]. split; [exact HRun|].
  split; [exact Hpre|]. split; [exact Hiss|].
  destruct (Run_nonempty _ _ _ _ _ _ _ _ HRun) as [Hne Hlen].
  assert (forall a, c = Called a -> err_and_shouldFallback a = true ->
                    hs = candidates hosts) as Hfull.
  { intros a -> Hretry. destruct Hstop as [[Hstop | Hstop] _]; [congruence | exact Hstop]. }
  split; [|split].
  - intros i o a Hi Hc Hretry Hnext.
    destruct (Run_lookup _ _ _ _ _ HRun _ _ Hi) as (hi & _ & _ & _ & Hend).
    assert (i < length os)%nat as Hlt by (apply lookup_lt_Some in Hi; exact Hi).
    destruct (Nat.eq_dec (S i) (length os)) as [Hlast | Hmid].
    { rewrite (Hend Hlast) in Hc. specialize (Hfull _ Hc Hretry).
      rewrite <- Hfull, <- Hlen in Hnext. lia. }
    destruct (lookup_lt_is_Some_2 os (S i) ltac:(lia)) as [o' Ho'].
    destruct (Run_lookup _ _ _ _ _ HRun _ _ Ho') as (h' & Hh' & Hurl' & _).
    exists o', h'. split; [exact Ho'|]. split; [|exact Hurl'].
    destruct Hpre as [k ->]. now apply lookup_app_l_Some.
  - destruct (last os) as [o|] eqn:Hl.
    + exists o. split; [reflexivity|]. rewrite last_lookup in Hl.
      destruct (Run_lookup _ _ _ _ _ HRun _ _ Hl) as (hl & _ & _ & _ & Hend).
      apply Hend. destruct os; [discriminate | reflexivity].
    + apply last_None in Hl. subst os. destruct hs; [congruence | discriminate].
  - destruct c as [a|exn]; [|exact I]. intros err Herr.
    destruct Hstop as [[Hstop | Hstop] _]; [left | now right].
    unfold err_and_shouldFallback in Hstop. now rewrite Herr in Hstop.
Qed.

(** C4: with a stored record that has not expired, [Http.do] first makes
    one request, to the stored host.  If that attempt does not fail
    retryably its outcome is the dispatch's outcome.  If it does, the
    dispatch is re-entered once on the client with the record cleared, which
    is the normal sequence over the resolved hosts and never re-enters
    again: two entries of fuel always suffice.  In all, between one and
    1 + max(1, number of resolved hosts) requests are sent. *)
Theorem C4_stored_fallback_single_restart rest w f fuel :
  _currentFallback rest = Some f ->
  now w < validUntil f ->
  exists o c1 w1,
    attempt rest (host f) w = (c1, w1) /\
    do_url o = uriFromHost P path rest (host f) /\
    issued w1 = (issued w ++ [o])%list /\
    c1 = completion_of P net (length (issued w)) o /\
    exists c rest' w',
      do_ (S (S fuel)) rest w = Some (c, rest', w') /\
      match c1 with
      | Called a =>
          if err_and_shouldFallback a then
            _currentFallback (set_currentFallback rest None) = None /\
            do_ (S fuel) (set_currentFallback rest None) w1 = Some (c, rest', w') /\
            normal_sequence (set_currentFallback rest None) w1 = (c, rest', w')
          else (c, rest', w') = (c1, rest, w1)
      | Unhandled _ => (c, rest', w') = (c1, rest, w1)
      end /\
      exists os,
        issued w' = (issued w ++ o :: os)%list /\
        (length os <= Nat.max 1 (length (getHosts P rest)))%nat.
Proof.
  intros Ef Hlive.
  destruct (attempt_issued P net method path headers body params rest (host f) w)
    as (o & Hurl & Hc & Hi).
  rewrite (do_stored _ _ _ _ _ _ _ _ _ _ _ Ef Hlive).
  destruct (attempt rest (host f) w) as [c1 w1] eqn:Ea.
  simpl in Hc, Hi. injection Hc as Hc.
  exists o, c1, w1. split; [reflexivity|].
  split; [exact Hurl|]. split; [exact Hi|]. split; [exact Hc|].
  destruct c1 as [a|exn].
  - destruct (err_and_shouldFallback a) eqn:Eretry.
    + destruct (normal_sequence (set_currentFallback rest None) w1)
        as [[c rest'] w'] eqn:En.
      exists c, rest', w'. rewrite do_cold by reflexivity. rewrite En.
      split; [reflexivity|]. split; [repeat split; reflexivity|].
      apply normal_sequence_issued in En as (os & Hos & Hlen).
      exists os. split; [|rewrite getHosts_set in Hlen; lia].
      rewrite Hos, Hi, <- app_assoc. reflexivity.
    + eexists _, _, _. split; [reflexivity|]. split; [reflexivity|].
      exists []. split; [exact Hi | simpl; lia].
  - eexists _, _, _. split; [reflexivity|]. split; [reflexivity|].
    exists []. split; [exact Hi | simpl; lia].
Qed.

(** C7: entered with a stored record whose validUntil is at or before now,
    [Http.do] makes no request through the stored-fallback path: it clears
    the record and runs the normal sequence over the resolved hosts, and the
    whole dispatch is the one a client with nothing stored would make. *)
Theorem C7_expired_record_is_cold_start rest w f fuel :
  _currentFallback rest = Some f ->
  validUntil f <= now w ->
  _currentFallback (set_currentFallback rest None) = None /\
  do_ (S fuel) rest w = Some (normal_sequence (set_currentFallback rest None) w) /\
  do_ (S fuel) rest w = do_ (S fuel) (set_currentFallback rest None) w.
Proof.
  intros Ef Hexp. split; [reflexivity|].
  rewrite (do_expired _ _ _ _ _ _ _ _ _ _ _ Ef Hexp), do_cold by reflexivity.
  split; reflexivity.
Qed.

(** C9: when the dispatch uses the stored record and the one attempt
    against the stored host succeeds, or fails with a non-retryable error,
    the dispatch ends there and the client object comes back as it was: its
    record has the same host and the same validUntil. *)
Theorem C9_stored_record_untouched_on_reuse rest w f fuel a w1 :
  _currentFallback rest = Some f ->
  now w < validUntil f ->
  attempt rest (host f) w = (Called a, w1) ->
  args_err a = None \/ (exists err, args_err a = Some err /\ shouldFallback err = false) ->
  exists rest',
    do_ (S fuel) rest w = Some (Called a, rest', w1) /\
    rest' = rest /\
    _currentFallback rest' = Some f.
Proof.
  intros Ef Hlive Hc Hok. exists rest.
  rewrite (do_stored _ _ _ _ _ _ _ _ _ _ _ Ef Hlive), Hc.
  assert (err_and_shouldFallback a = false) as ->.
  { unfold err_and_shouldFallback.
    destruct Hok as [-> | (err & -> & Hnr)]; [reflexivity | exact Hnr]. }
  split; [reflexivity|]. split; [reflexivity | exact Ef].
Qed.

End DispatcherClaims.

(** ** The shared agents *)

Section Agents.

Context (P : Platform) (net : Network).

Lemma doUri_agents_step method rest uri headers body params w :
  agents_step (caller_agentOptions P rest) w
              (snd (doUri P net method rest uri headers body params w)).
Proof.
  rewrite doUri_spec. cbn [snd]. unfold agents_step, doOptions_of. cbn.
  destruct (Http_agent w) as [agents|] eqn:E.
  - rewrite (ensure_agent_fst _ _ _ E). cbn.
    eexists _, _, []. repeat (split; [reflexivity|]).
    split; [|split; reflexivity]. repeat constructor.
  - rewrite (ensure_agent_fresh _ _ E). cbn.
    eexists _, _, []. repeat (split; [reflexivity|]).
    split; [|repeat split; reflexivity]. repeat constructor.
Qed.

Lemma agents_step_trans ao ao' w w1 w2 :
  agents_step ao w w1 -> agents_step ao' w1 w2 -> agents_step ao w w2.
Proof.
  intros (ag1 & o1 & os1 & Hag1 & Hi1 & Hall1 & Hcase1)
         (ag2 & o2 & os2 & Hag2 & Hi2 & Hall2 & Hcase2).
  rewrite Hag1 in Hcase2. destruct Hcase2 as [-> Hmade].
  exists ag1, o1, (os1 ++ o2 :: os2)%list.
  split; [exact Hag2|]. split.
  { rewrite Hi2, Hi1, <- app_assoc. reflexivity. }
  split.
  { rewrite app_comm_cons. apply Forall_app. split; assumption. }
  destruct (Http_agent w).
  - destruct Hcase1 as [-> Hm]. split; [reflexivity | congruence].
  - destruct Hcase1 as (? & ? & ? & ? & Hm). repeat (split; [assumption|]). congruence.
Qed.

Lemma agents_step_kept ao w w' agents :
  Http_agent w = Some agents -> agents_step ao w w' -> agents_kept agents w w'.
Proof.
  intros E (ag & o & os & Hag & Hi & Hall & Hcase). rewrite E in Hcase.
  destruct Hcase as [-> Hm]. repeat (split; [assumption|]).
  exists (o :: os). split; assumption.
Qed.

Lemma agents_kept_trans agents w w1 w2 :
  agents_kept agents w w1 -> agents_kept agents w1 w2 -> agents_kept agents w w2.
Proof.
  intros (E & E1 & Hm1 & os1 & Hi1 & Hall1) (_ & E2 & Hm2 & os2 & Hi2 & Hall2).
  split; [exact E|]. split; [exact E2|]. split; [congruence|].
  exists (os1 ++ os2)%list. split.
  - rewrite Hi2, Hi1, <- app_assoc. reflexivity.
  - apply Forall_app. split; assumption.
Qed.

Section OneDispatch.

Context (method : Method) (path : Path) (headers : option Headers)
        (body : option Buffer) (params : option Params).

Local Abbreviation tryAHost := (tryAHost P net method path headers body params).
Local Abbreviation normal_sequence :=
  (normal_sequence P net method path headers body params).
Local Abbreviation do_ := (do_ P net method path headers body params).

Lemma tryAHost_agents_step hosts : forall persist rest w c rest' w',
  tryAHost hosts persist rest w = (c, rest', w') ->
  agents_step (caller_agentOptions P (Some rest)) w w'.
Proof.
  assert (forall n hosts, length hosts = n -> forall persist rest w c rest' w',
            tryAHost hosts persist rest w = (c, rest', w') ->
            agents_step (caller_agentOptions P (Some rest)) w w') as Hind.
  { clear hosts. induction n as [|n IH]; intros hosts Hn persist rest w c rest' w' H;
      rewrite tryAHost_eq in H;
      pose proof (doUri_agents_step method (Some rest)
                    (uriFromHost P path rest (head hosts)) headers body params w) as Hstep;
      destruct (doUri _ _ _ _ _ _ _ _ _) as [[a|exn] w1]; cbn [snd] in Hstep;
      try (injection H as <- <- <-; exact Hstep).
    - destruct hosts; [|discriminate]. cbn in H. rewrite andb_false_r in H.
      unfold persist_and_deliver in H. injection H as <- <- <-. exact Hstep.
    - destruct (err_and_shouldFallback a && negb (Nat.eqb (length (tail hosts)) 0)).
      + destruct hosts as [|h t]; [discriminate|]. cbn [tail] in H.
        eapply agents_step_trans; [exact Hstep|].
        eapply IH; [|exact H]. simpl in Hn. congruence.
      + unfold persist_and_deliver in H. injection H as <- <- <-. exact Hstep. }
  intros. eapply Hind; eauto.
Qed.

Lemma normal_sequence_agents_step rest w c rest' w' :
  normal_sequence rest w = (c, rest', w') ->
  agents_step (caller_agentOptions P (Some rest)) w w'.
Proof.
  unfold normal_sequence. destruct (Nat.eqb _ 1).
  - pose proof (doUri_agents_step method (Some rest)
                  (uriFromHost P path rest (getHosts P rest !! 0%nat))
                  headers body params w) as Hstep.
    destruct (doUri _ _ _ _ _ _ _ _ _) as [c1 w1]. cbn [snd] in Hstep.
    intros H. injection H as <- <- <-. exact Hstep.
  - apply tryAHost_agents_step.
Qed.

Lemma do_agents_step fuel : forall rest w c rest' w',
  do_ fuel rest w = Some (c, rest', w') ->
  agents_step (caller_agentOptions P (Some rest)) w w'.
Proof.
  induction fuel as [|fuel IH]; intros rest w c rest' w' H; [discriminate|].
  destruct (_currentFallback rest) as [f|] eqn:Ef.
  - destruct (Z.ltb_spec (now w) (validUntil f)) as [Hlive | Hexp].
    + rewrite (do_stored _ _ _ _ _ _ _ _ _ _ _ Ef Hlive) in H.
      pose proof (doUri_agents_step method (Some rest)
                    (uriFromHost P path rest (host f)) headers body params w) as Hstep.
      destruct (doUri _ _ _ _ _ _ _ _ _) as [[a|exn] w1]; cbn [snd] in Hstep.
      * destruct (err_and_shouldFallback a).
        -- eapply agents_step_trans; [exact Hstep|]. apply IH in H. exact H.
        -- injection H as <- <- <-. exact Hstep.
      * injection H as <- <- <-. exact Hstep.
    + rewrite (do_expired _ _ _ _ _ _ _ _ _ _ _ Ef Hexp) in H. injection H as H.
      apply normal_sequence_agents_step in H. exact H.
  - rewrite do_cold in H by exact Ef. injection H as H.
    now apply normal_sequence_agents_step in H.
Qed.

End OneDispatch.

Lemma run_call_agents_step c w :
  agents_step (caller_agentOptions P (call_rest c)) w (run_call P net c w).
Proof.
  destruct c as [method rest uri headers body params
                | method rest path headers body params |]; cbn [run_call call_rest].
  - apply doUri_agents_step.
  - destruct (do_enough_fuel P net method path headers body params 0 rest w) as [Hsome _].
    destruct (do_ P net method path headers body params 2 rest w)
      as [[[c rest'] w']|] eqn:E; [|congruence].
    eapply do_agents_step; exact E.
  - unfold checkConnectivity, getUri.
    pose proof (doUri_agents_step M_get None (Defaults_internetUpUrl P)
                  None None None w) as Hstep.
    destruct (doUri _ _ _ _ _ _ _ _ _) as [[a|exn] w1]; cbn [snd] in Hstep.
    + destruct (args_err a); [exact Hstep|].
      destruct (toString _ _); exact Hstep.
    + exact Hstep.
Qed.

Lemma run_calls_agents_kept agents cs : forall w,
  Http_agent w = Some agents -> agents_kept agents w (run_calls P net cs w).
Proof.
  induction cs as [|c cs IH]; intros w E.
  - repeat (split; [first [exact E | reflexivity]|]).
    exists []. split; [now rewrite app_nil_r | constructor].
  - cbn. pose proof (agents_step_kept _ _ _ _ E (run_call_agents_step c w)) as Hk.
    eapply agents_kept_trans; [exact Hk|]. apply IH. apply Hk.
Qed.

(** C10: starting with no agents, the first call (whatever it is and
    whoever makes it) creates one pair of agents from that caller's
    [restAgentOptions], or from the defaults when the caller has none; all
    later calls, by any callers with any options, leave that pair in place,
    make no further agent, and send every request with that same pair. *)
Theorem C10_agents_created_once_and_kept (first : Call) (later : list Call) (w : World) :
  Http_agent w = None ->
  exists agents,
    agent_options (agent_http agents) = caller_agentOptions P (call_rest first) /\
    agent_options (agent_https agents) = caller_agentOptions P (call_rest first) /\
    Http_agent (run_call P net first w) = Some agents /\
    Http_agent (run_calls P net later (run_call P net first w)) = Some agents /\
    agents_made (run_calls P net later (run_call P net first w)) =
      S (S (agents_made w)) /\
    exists o os,
      issued (run_calls P net later (run_call P net first w)) =
        (issued w ++ o :: os)%list /\
      Forall (fun o => do_agent o = agents) (o :: os).
Proof.
  intros E.
  destruct (run_call_agents_step first w)
    as (agents & o & os & Hag & Hi & Hall & Hcase).
  rewrite E in Hcase. destruct Hcase as (Ho1 & Ho2 & _ & _ & Hmade).
  destruct (run_calls_agents_kept agents later _ Hag)
    as (_ & Hag' & Hmade' & os' & Hi' & Hall').
  exists agents. repeat (split; [first [assumption | congruence]|]).
  exists o, (os ++ os')%list. split.
  - rewrite Hi', Hi, <- app_assoc. reflexivity.
  - rewrite app_comm_cons. apply Forall_app. split; assumption.
Qed.

End Agents.

(** ** The connectivity probe *)

Section Prober.

Context (P : Platform) (net : Network).



Lemma checkConnectivity_eq w :
  let o := doOptions_of P M_get None (Defaults_internetUpUrl P) None None None w in
  fst (checkConnectivity P net w) =
    match completion_of P net (length (issued w)) o with
    | Unhandled exn => NotReported exn
    | Called a =>
        match args_err a with
        | Some _ => Reported None false
        | None =>
            match toString (type_error P (args_body a) "toString") (args_body a) with
            | inl exn => CallbackThrew exn
            | inr text => Reported None (String.eqb (trim text) "yes")
            end
        end
    end /\
  issued (snd (checkConnectivity P net w)) = (issued w ++ [o])%list.
Proof.
  unfold checkConnectivity, getUri. rewrite doUri_spec. cbn zeta.
  destruct (completion_of _ _ _ _) as [a|exn]; [|split; reflexivity].
  destruct (args_err a); [split; reflexivity|].
  destruct (toString _ _); split; reflexivity.
Qed.


End Prober.

(** ** The claims on concrete runs *)

(** C1: the code does not keep to it.  With hosts [A, B] and nothing
    stored, A times out and B answers 404: the sequence ends in a
    non-retryable failure, and the dispatch has nevertheless stored a record
    for B, valid until the time of B's answer plus the configured
    fallbackRetryTimeout.  The same happens when B answers 503 and the host
    list is exhausted. *)
Theorem C1_record_stored_though_sequence_failed :
  getHosts Examples.platform Examples.client = ["A"; "B"] /\
  (exists a err w',
     do_ Examples.platform Examples.net_timeout_then_404 M_get Examples.path
         None None None 2 Examples.client Examples.world0 =
       Some (Called a,
             set_currentFallback Examples.client
               (Some {| host := Some "B"; validUntil := 1050 + 600000 |}),
             w') /\
     now w' = 1050 /\
     args_err a = Some err /\
     err_statusCode err = Some 404 /\
     shouldFallback err = false) /\
  (exists a err w',
     do_ Examples.platform Examples.net_timeout_then_503 M_get Examples.path
         None None None 2 Examples.client Examples.world0 =
       Some (Called a,
             set_currentFallback Examples.client
               (Some {| host := Some "B"; validUntil := 1050 + 600000 |}),
             w') /\
     now w' = 1050 /\
     args_err a = Some err /\
     err_statusCode err = Some 503 /\
     shouldFallback err = true).
Proof.
  split; [reflexivity|].
  split; eexists _, _, _;
    (split; [vm_compute; reflexivity|]);
    (split; [reflexivity|]); (split; [reflexivity|]);
    split; vm_compute; reflexivity.
Qed.

Lemma C5_retryable_error_moves_to_next_host_witness :
  (exists c rest' w' hs os,
     tryAHost Examples.platform (Examples.scripted []) M_get Examples.path
              None None None ["A"; "B"; "C"] false Examples.client Examples.world0 =
       (c, rest', w') /\
     Run Examples.platform (Examples.scripted []) Examples.path Examples.client
         (length (issued Examples.world0)) hs os c /\
     hs `prefix_of` candidates ["A"; "B"; "C"] /\
     issued w' = (issued Examples.world0 ++ os)%list /\
     (forall i o a,
        os !! i = Some o ->
        completion_of Examples.platform (Examples.scripted [])
                      (length (issued Examples.world0) + i) o = Called a ->
        err_and_shouldFallback a = true ->
        (S i < length (candidates ["A"; "B"; "C"]))%nat ->
        exists o' h',
          os !! S i = Some o' /\
          candidates ["A"; "B"; "C"] !! S i = Some h' /\
          do_url o' = uriFromHost Examples.platform Examples.path Examples.client h') /\
     (exists o,
        last os = Some o /\
        completion_of Examples.platform (Examples.scripted [])
                      (length (issued Examples.world0) + pred (length os)) o = c) /\
     match c with
     | Called a =>
         forall err, args_err a = Some err ->
                     shouldFallback err = false \/ hs = candidates ["A"; "B"; "C"]
     | Unhandled _ => True
     end) /\
  (exists rest' w',
     tryAHost Examples.platform (Examples.scripted []) M_get Examples.path
              None None None ["A"; "B"; "C"] false Examples.client Examples.world0 =
       (Called (ArgsErr Examples.timed_out), rest', w') /\
     map do_url (issued w') =
       ["https://A:443/time"; "https://B:443/time"; "https://C:443/time"]).
Proof.
  split.
  - apply (C5_retryable_error_moves_to_next_host
             Examples.platform (Examples.scripted []) M_get Examples.path
             None None None ["A"; "B"; "C"] false Examples.client Examples.world0).
  - eexists _, _. split; vm_compute; reflexivity.
Defined.

Lemma C4_stored_fallback_single_restart_witness :
  exists c rest' w',
    do_ Examples.platform Examples.net_timeout_then_ok M_get Examples.path
        None None None 2
        (set_currentFallback Examples.client (Some (Examples.stored_B 5000)))
        Examples.world0 = Some (c, rest', w') /\
    (length (issued w') <= 3)%nat.
Proof.
  destruct (C4_stored_fallback_single_restart
              Examples.platform Examples.net_timeout_then_ok M_get Examples.path
              None None None
              (set_currentFallback Examples.client (Some (Examples.stored_B 5000)))
              Examples.world0 (Examples.stored_B 5000) 0
              ltac:(reflexivity) ltac:(simpl; lia))
    as (o & c1 & w1 & _ & _ & _ & _ & c & rest' & w' & Hdo & _ & os & Hos & Hlen).
  exists c, rest', w'. split; [exact Hdo|].
  rewrite Hos. cbn in Hlen |- *. lia.
Defined.

Lemma C7_expired_record_is_cold_start_witness :
  do_ Examples.platform Examples.net_ok M_get Examples.path None None None 1
      (set_currentFallback Examples.client (Some (Examples.stored_B 500)))
      Examples.world0 =
  do_ Examples.platform Examples.net_ok M_get Examples.path None None None 1
      Examples.client Examples.world0.
Proof.
  apply (C7_expired_record_is_cold_start
           Examples.platform Examples.net_ok M_get Examples.path None None None
           (set_currentFallback Examples.client (Some (Examples.stored_B 500)))
           Examples.world0 (Examples.stored_B 500) 0).
  - reflexivity.
  - simpl. lia.
Defined.

Lemma C9_stored_record_untouched_on_reuse_witness :
  exists a w1 rest',
    do_ Examples.platform Examples.net_404 M_get Examples.path None None None 1
        (set_currentFallback Examples.client (Some (Examples.stored_B 5000)))
        Examples.world0 = Some (Called a, rest', w1) /\
    rest' = set_currentFallback Examples.client (Some (Examples.stored_B 5000)) /\
    _currentFallback rest' = Some (Examples.stored_B 5000).
Proof.
  eexists _, _.
  apply (C9_stored_record_untouched_on_reuse
           Examples.platform Examples.net_404 M_get Examples.path None None None
           (set_currentFallback Examples.client (Some (Examples.stored_B 5000)))
           Examples.world0 (Examples.stored_B 5000) 0).
  - reflexivity.
  - simpl. lia.
  - vm_compute. reflexivity.
  - right. eexists. split; [reflexivity | vm_compute; reflexivity].
Defined.

Lemma C10_agents_created_once_and_kept_witness :
  exists agents,
    agent_options (agent_http agents) = {| maxSockets := 40; keepAlive := true |} /\
    Http_agent
      (run_calls Examples.platform Examples.net_ok
         [CallDo M_get Examples.client Examples.path None None None]
         (run_call Examples.platform Examples.net_ok CallCheckConnectivity
                   Examples.world0)) = Some agents.
Proof.
  destruct (C10_agents_created_once_and_kept
              Examples.platform Examples.net_ok CallCheckConnectivity
              [CallDo M_get Examples.client Examples.path None None None]
              Examples.world0 ltac:(reflexivity))
    as (agents & Ho & _ & _ & Hag & _).
  exists agents. split; [exact Ho | exact Hag].
Defined.


(** ** Further properties of the attempt sequence *)

Section MoreOnDispatch.

Context (P : Platform) (net : Network).
Context (method : Method) (path : Path) (headers : option Headers)
        (body : option Buffer) (params : option Params).

(** X1: when the attempt sequence, started by [Http.do], ends in a success, the
    hosts before the last one all failed retryably, and a record for the
    last host, valid until the time of its answer plus
    fallbackRetryTimeout, is stored exactly when it was not the first host
    tried; when the first host succeeds the client is left as it was. *)
Theorem tryAHost_success_stores_record_unless_first hosts rest w a rest' w' :
  tryAHost P net method path headers body params hosts false rest w =
    (Called a, rest', w') ->
  args_err a = None ->
  exists hs h os,
    Run P net path rest (length (issued w)) hs os (Called a) /\
    hs `prefix_of` candidates hosts /\
    last hs = Some h /\
    issued w' = (issued w ++ os)%list /\
    rest' = if (1 <? length hs)%nat
            then set_currentFallback rest
                   (Some {| host := h;
                            validUntil :=
                              now w' + fallbackRetryTimeout (timeouts (options rest)) |})
            else rest.
Proof.
  intros H _.
  apply tryAHost_run in H as (hs & h & os & HRun & Hpre & Hlast & Hiss & _ & Hrest).
  exists hs, h, os. repeat (split; [assumption|]). exact Hrest.
Qed.

(** X2: with exactly one resolved host and nothing stored, the dispatch is one
    request to that host, whatever its outcome, and the client is left as
    it was. *)
Theorem do_single_host_one_attempt rest w h fuel :
  _currentFallback rest = None ->
  getHosts P rest = [h] ->
  exists o c w',
    do_ P net method path headers body params (S fuel) rest w = Some (c, rest, w') /\
    issued w' = (issued w ++ [o])%list /\
    do_url o = uriFromHost P path rest (Some h) /\
    c = completion_of P net (length (issued w)) o.
Proof.
  intros Ef Hh. rewrite do_cold by exact Ef. unfold normal_sequence.
  rewrite Hh. cbn [length Nat.eqb]. cbn.
  rewrite doUri_spec. eexists _, _, _. split; [reflexivity|].
  repeat split; reflexivity.
Qed.

End MoreOnDispatch.

Lemma tryAHost_success_stores_record_unless_first_witness :
  exists a w',
    tryAHost Examples.platform Examples.net_timeout_then_ok M_get Examples.path
             None None None ["A"; "B"] false Examples.client Examples.world0 =
      (Called a,
       set_currentFallback Examples.client
         (Some {| host := Some "B"; validUntil := 1050 + 600000 |}),
       w') /\
    args_err a = None /\
    exists hs h os,
      Run Examples.platform Examples.net_timeout_then_ok Examples.path
          Examples.client (length (issued Examples.world0)) hs os (Called a) /\
      hs `prefix_of` candidates ["A"; "B"] /\
      last hs = Some h /\
      issued w' = (issued Examples.world0 ++ os)%list /\
      set_currentFallback Examples.client
        (Some {| host := Some "B"; validUntil := 1050 + 600000 |}) =
      if (1 <? length hs)%nat
      then set_currentFallback Examples.client
             (Some {| host := h;
                      validUntil :=
                        now w' + fallbackRetryTimeout
                                   (timeouts (options Examples.client)) |})
      else Examples.client.
Proof.
  eexists _, _.
  split; [vm_compute; reflexivity|]. split; [reflexivity|].
  eapply (tryAHost_success_stores_record_unless_first
            Examples.platform Examples.net_timeout_then_ok M_get Examples.path
            None None None ["A"; "B"] Examples.client Examples.world0).
  - vm_compute. reflexivity.
  - reflexivity.
Defined.

Lemma do_single_host_one_attempt_witness :
  exists o c w',
    do_ Examples.platform Examples.net_404 M_get Examples.path None None None 1
        {| options := {| restAgentOptions := None;
                         timeouts := timeouts Examples.client_options;
                         restHost := "A"; fallbackHosts := [] |};
           connection := None; _currentFallback := None |}
        Examples.world0 =
      Some (c,
            {| options := {| restAgentOptions := None;
                             timeouts := timeouts Examples.client_options;
                             restHost := "A"; fallbackHosts := [] |};
               connection := None; _currentFallback := None |},
            w') /\
    issued w' = [o] /\
    do_url o = "https://A:443/time".
Proof.
  destruct (do_single_host_one_attempt
              Examples.platform Examples.net_404 M_get Examples.path None None None
              {| options := {| restAgentOptions := None;
                               timeouts := timeouts Examples.client_options;
                               restHost := "A"; fallbackHosts := [] |};
                 connection := None; _currentFallback := None |}
              Examples.world0 "A" 0 ltac:(reflexivity) ltac:(reflexivity))
    as (o & c & w' & Hdo & Hi & Hurl & _).
  exists o, c, w'. split; [exact Hdo|]. split; [exact Hi | exact Hurl].
Defined.

(** * Further properties of http.js *)

(** ** What the callback is given *)

Section Outcomes.

Context (P : Platform) (net : Network).

Lemma handler_shape response body a :
  handler P None (Some response) body = Returned a ->
  args_shape a /\
  exists err body',
    a = ArgsFull err body' (res_headers response)
                 (300 <=? res_statusCode response) (res_statusCode response).
Proof.
  intros H. destruct (Z.lt_ge_cases (res_statusCode response) 300) as [Hlt | Hge].
  - rewrite handler_below_300 in H by exact Hlt. injection H as <-.
    destruct (Z.leb_spec 300 (res_statusCode response)) as [Hle|_]; [lia|].
    split; [|eauto]. cbn. destruct (Z.leb_spec 300 (res_statusCode response)); [lia|].
    split; [tauto | reflexivity].
  - rewrite handler_from_300 in H by exact Hge.
    destruct (decode_declared _ _ _); [discriminate|].
    destruct (get_property _ _ _); [discriminate|].
    injection H as <-.
    destruct (Z.leb_spec 300 (res_statusCode response)) as [_|Hlt]; [|lia].
    split; [|eauto]. cbn. destruct (Z.leb_spec 300 (res_statusCode response)); [|lia].
    split; [|reflexivity]. split; [discriminate | lia].
Qed.

Lemma settle_shape s a : settle P s = Called a -> args_shape a.
Proof.
  destruct s as [res | [res | err]]; unfold settle, on_then, on_catch.
  - destruct (handler P None (Some res) _) as [b|exn] eqn:Hb.
    + intros H. injection H as <-. now apply handler_shape in Hb.
    + rewrite handler_err. intros H. injection H as <-. exact I.
  - destruct (handler P None (Some res) _) as [b|exn] eqn:Hb; [|discriminate].
    intros H. injection H as <-. now apply handler_shape in Hb.
  - rewrite handler_err. intros H. injection H as <-. exact I.
Qed.

(** An unhandled rejection comes from one place only: the classifier
    throwing on the response of an HTTPError. *)
Lemma settle_unhandled s exn :
  settle P s = Unhandled exn <->
  exists response,
    s = Rejected (HTTPError response) /\
    handler P None (Some response) (VBuffer (res_body response)) = Thrown exn.
Proof.
  split.
  - destruct s as [res | [res | err]]; unfold settle, on_then, on_catch.
    + destruct (handler P None (Some res) _); [discriminate|].
      rewrite handler_err. discriminate.
    + destruct (handler P None (Some res) _) eqn:Hh; [discriminate|].
      intros H. injection H as <-. eauto.
    + rewrite handler_err. discriminate.
  - intros (response & -> & Hh). unfold settle, on_catch. now rewrite Hh.
Qed.

Section OneDispatch.

Context (method : Method) (path : Path) (headers : option Headers)
        (body : option Buffer) (params : option Params).

Local Abbreviation tryAHost := (tryAHost P net method path headers body params).
Local Abbreviation normal_sequence :=
  (normal_sequence P net method path headers body params).
Local Abbreviation do_ := (do_ P net method path headers body params).
Local Abbreviation Run := (Run P net path).

Lemma Run_completion rest n hs os c :
  Run rest n hs os c -> exists m o, completion_of P net m o = c.
Proof. induction 1; eauto. Qed.

Lemma normal_sequence_completion rest w c rest' w' :
  normal_sequence rest w = (c, rest', w') ->
  exists m o, completion_of P net m o = c.
Proof.
  unfold normal_sequence. destruct (Nat.eqb _ 1).
  - rewrite doUri_spec. intros H. injection H as <- _ _. eauto.
  - intros H. apply tryAHost_run in H as (hs & h & os & HRun & _).
    eapply Run_completion; exact HRun.
Qed.

Lemma do_completion fuel : forall rest w c rest' w',
  do_ fuel rest w = Some (c, rest', w') ->
  exists m o, completion_of P net m o = c.
Proof.
  induction fuel as [|fuel IH]; intros rest w c rest' w' H; [discriminate|].
  destruct (_currentFallback rest) as [f|] eqn:Ef.
  - destruct (Z.ltb_spec (now w) (validUntil f)) as [Hlive | Hexp].
    + rewrite (do_stored _ _ _ _ _ _ _ _ _ _ _ Ef Hlive), doUri_spec in H.
      destruct (completion_of _ _ _ _) as [a|exn] eqn:Ec.
      * destruct (err_and_shouldFallback a); [now apply IH in H|].
        injection H as <- _ _. eauto.
      * injection H as <- _ _. eauto.
    + rewrite (do_expired _ _ _ _ _ _ _ _ _ _ _ Ef Hexp) in H. injection H as H.
      now apply normal_sequence_completion in H.
  - rewrite do_cold in H by exact Ef. injection H as H.
    now apply normal_sequence_completion in H.
Qed.

(** X3: whatever [Http.do] hands to the caller's callback is either a bare
    error, or the five arguments (err, body, headers, flag, statusCode) in
    which err is null exactly when statusCode is below 300 and the flag is
    true exactly when it is not: never a success with an error status, never
    an error with a success status. *)
Theorem do_delivers_well_formed_arguments fuel rest w a rest' w' :
  do_ fuel rest w = Some (Called a, rest', w') ->
  args_shape a.
Proof.
  intros H. apply do_completion in H as (m & o & Hc).
  unfold completion_of in Hc. now apply settle_shape in Hc.
Qed.

End OneDispatch.

(** X4: a response with status 300 or more that declares neither
    application/json nor application/x-msgpack is never decoded and never
    makes the classifier throw: both after a fulfilled request and after an
    HTTPError the callback gets (error, raw body, headers, true, statusCode)
    with an ErrorInfo made of the headers and the status, and that error is
    retryable exactly when the status is in [500, 504] or the
    x-ably-errorcode header is a network-failure code. *)
Theorem undeclared_error_response_is_synthesized response :
  300 <= res_statusCode response ->
  res_headers response !! "content-type" <> Some "application/json" ->
  res_headers response !! "content-type" <> Some "application/x-msgpack" ->
  let raw := VBuffer (res_body response) in
  let error :=
    new_ErrorInfo (error_message P (res_headers response) (res_statusCode response) raw)
                  (header_code (res_headers response)) (res_statusCode response) in
  settle P (Rejected (HTTPError response)) =
    Called (ArgsFull (Some error) raw (res_headers response) true
                     (res_statusCode response)) /\
  settle P (Fulfilled response) =
    Called (ArgsFull (Some error) raw (res_headers response) true
                     (res_statusCode response)) /\
  (shouldFallback error = true <->
     500 <= res_statusCode response <= 504 \/
     network_failure (header_code (res_headers response))).
Proof.
  intros Hge Hj Hm raw error.
  assert (handler P None (Some response) raw =
            Returned (ArgsFull (Some error) raw (res_headers response) true
                               (res_statusCode response))) as Hh.
  { rewrite handler_from_300 by exact Hge.
    assert (decode_declared P (res_headers response !! "content-type") raw = inr raw)
      as ->.
    { unfold decode_declared.
      destruct (res_headers response !! "content-type") as [ct|]; [|reflexivity].
      destruct (String.eqb_spec ct "application/json") as [->|_]; [congruence|].
      destruct (String.eqb_spec ct "application/x-msgpack") as [->|_]; [congruence|].
      reflexivity. }
    reflexivity. }
  split; [|split].
  - unfold settle, on_catch. fold raw. now rewrite Hh.
  - unfold settle, on_then. fold raw. now rewrite Hh.
  - rewrite shouldFallback_spec. unfold retryable_by_spec, server_failure. cbn.
    split.
    + intros [Hn | (n & Hn & Hr)]; [now right | left]. injection Hn as ->. exact Hr.
    + intros [Hr | Hn]; [right; eauto | now left].
Qed.

End Outcomes.

(** ** The requests of a dispatch *)

Section Requests.

Context (P : Platform) (net : Network).
Context (method : Method) (path : Path) (headers : option Headers)
        (body : option Buffer) (params : option Params).

Local Abbreviation tryAHost := (tryAHost P net method path headers body params).
Local Abbreviation normal_sequence :=
  (normal_sequence P net method path headers body params).
Local Abbreviation do_ := (do_ P net method path headers body params).
Local Abbreviation attempt rest h w :=
  (doUri P net method (Some rest) (uriFromHost P path rest h) headers body params w).
Local Abbreviation Run := (Run P net path).
Local Abbreviation sent_to rest hosts :=
  (fun o => carries method headers body params rest o /\
            exists h, In h hosts /\ do_url o = uriFromHost P path rest h).

Lemma attempt_request rest h w :
  exists o,
    issued (snd (attempt rest h w)) = (issued w ++ [o])%list /\
    carries method headers body params rest o /\
    do_url o = uriFromHost P path rest h.
Proof.
  rewrite doUri_spec. eexists. split; [reflexivity|].
  split; [repeat split|]; reflexivity.
Qed.







(** X6: every dispatch ends: with fuel for two entries [Http.do] returns.
    It sends at least one request and at most one to the stored host plus
    one per resolved host (one when no host is resolved); without a stored
    record that is still valid it sends at most one per resolved host. *)
Theorem do_sends_boundedly_many_requests rest w :
  exists c rest' w' os,
    do_ 2 rest w = Some (c, rest', w') /\
    issued w' = (issued w ++ os)%list /\
    (1 <= length os <= 1 + Nat.max 1 (length (getHosts P rest)))%nat /\
    ((forall f, _currentFallback rest = Some f -> validUntil f <= now w) ->
     (length os <= Nat.max 1 (length (getHosts P rest)))%nat).
Proof.
  destruct (_currentFallback rest) as [f|] eqn:Ef.
  - destruct (Z.ltb_spec (now w) (validUntil f)) as [Hlive | Hexp].
    + rewrite (do_stored _ _ _ _ _ _ _ _ _ _ _ Ef Hlive).
      destruct (attempt_request rest (host f) w) as (o & Hi & _).
      destruct (doUri _ _ _ _ _ _ _ _ _) as [[a|exn] w1]; cbn [snd] in Hi.
      * destruct (err_and_shouldFallback a).
        -- rewrite do_cold by reflexivity.
           destruct (normal_sequence (set_currentFallback rest None) w1)
             as [[c rest'] w'] eqn:En.
           apply normal_sequence_issued in En as (os & Hos & Hlen).
           rewrite getHosts_set in Hlen.
           exists c, rest', w', (o :: os). split; [reflexivity|]. split.
           { rewrite Hos, Hi, <- app_assoc. reflexivity. }
           split; [simpl; lia|]. intros Hno. specialize (Hno f eq_refl). lia.
        -- eexists _, _, _, [o]. split; [reflexivity|]. split; [exact Hi|].
           split; [simpl; lia|]. intros Hno. specialize (Hno f eq_refl). lia.
      * eexists _, _, _, [o]. split; [reflexivity|]. split; [exact Hi|].
        split; [simpl; lia|]. intros Hno. specialize (Hno f eq_refl). lia.
    + rewrite (do_expired _ _ _ _ _ _ _ _ _ _ _ Ef Hexp).
      destruct (normal_sequence (set_currentFallback rest None) w)
        as [[c rest'] w'] eqn:En.
      apply normal_sequence_issued in En as (os & Hos & Hlen).
      rewrite getHosts_set in Hlen.
      exists c, rest', w', os. split; [reflexivity|]. split; [exact Hos|].
      split; lia.
  - rewrite do_cold by exact Ef.
    destruct (normal_sequence rest w) as [[c rest'] w'] eqn:En.
    apply normal_sequence_issued in En as (os & Hos & Hlen).
    exists c, rest', w', os. split; [reflexivity|]. split; [exact Hos|].
    split; lia.
Qed.

End Requests.

(** ** The record a dispatch leaves behind *)

Section Records.

Context (P : Platform) (net : Network).
Context (method : Method) (path : Path) (headers : option Headers)
        (body : option Buffer) (params : option Params).

Local Abbreviation tryAHost := (tryAHost P net method path headers body params).
Local Abbreviation normal_sequence :=
  (normal_sequence P net method path headers body params).
Local Abbreviation do_ := (do_ P net method path headers body params).
Local Abbreviation attempt rest h w :=
  (doUri P net method (Some rest) (uriFromHost P path rest h) headers body params w).
Local Abbreviation Run := (Run P net path).

Lemma lookup_map_Some (hosts : list Host) i x :
  map Some hosts !! i = Some x -> exists h, x = Some h /\ hosts !! i = Some h.
Proof.
  revert i. induction hosts as [|h t IH]; intros [|i] H; try discriminate.
  - injection H as <-. eauto.
  - apply IH in H. exact H.
Qed.

Lemma set_currentFallback_same rest :
  set_currentFallback rest (_currentFallback rest) = rest.
Proof. now destruct rest. Qed.

(** The record [tryAHost] leaves, when started by [Http.do]: none of its
    own, or one for a resolved host that is not in first position. *)
Lemma tryAHost_record hosts rest w c rest' w' :
  tryAHost hosts false rest w = (c, rest', w') ->
  rest' = rest \/
  exists i h,
    (1 <= i)%nat /\ hosts !! i = Some h /\
    rest' = set_currentFallback rest (Some (record_for rest (Some h) w')).
Proof.
  intros H.
  apply tryAHost_run in H as (hs & x & os & HRun & [k Hk] & Hlast & _ & Hc).
  destruct c as [a|exn]; [|now left].
  destruct Hc as [_ ->]. cbn [orb].
  destruct (Nat.ltb_spec 1 (length hs)) as [Hlen|Hlen]; [right | now left].
  assert (candidates hosts = map Some hosts) as Hcand.
  { destruct hosts; [|reflexivity]. cbn in Hk.
    apply (f_equal (@length _)) in Hk. rewrite length_app in Hk. cbn in Hk. lia. }
  rewrite Hcand in Hk.
  rewrite last_lookup in Hlast.
  assert (map Some hosts !! pred (length hs) = Some x) as Hx.
  { rewrite Hk, lookup_app_l by lia. exact Hlast. }
  apply lookup_map_Some in Hx as (h & -> & Hh).
  exists (pred (length hs)), h. split; [lia|]. split; [exact Hh | reflexivity].
Qed.

Lemma normal_sequence_record rest w c rest' w' :
  normal_sequence rest w = (c, rest', w') ->
  rest' = rest \/
  exists i h,
    (1 <= i)%nat /\ getHosts P rest !! i = Some h /\
    rest' = set_currentFallback rest (Some (record_for rest (Some h) w')).
Proof.
  unfold normal_sequence. destruct (Nat.eqb _ 1).
  - destruct (doUri _ _ _ _ _ _ _ _ _). intros H. injection H as _ <- _. now left.
  - apply tryAHost_record.
Qed.

(** X7: a dispatch touches nothing of the client but its record, and the
    record it leaves is the one it found, or none (the one it found had
    expired or failed retryably), or a new one whose host is one of the
    resolved hosts, never the one in first position and never undefined,
    and whose validUntil is the time of the last answer plus
    fallbackRetryTimeout. *)
Theorem do_leaves_a_record_of_a_later_host fuel rest w c rest' w' :
  do_ fuel rest w = Some (c, rest', w') ->
  options rest' = options rest /\
  connection rest' = connection rest /\
  (_currentFallback rest' = _currentFallback rest \/
   _currentFallback rest' = None \/
   exists i h,
     (1 <= i)%nat /\ getHosts P rest !! i = Some h /\
     _currentFallback rest' =
       Some {| host := Some h;
               validUntil := now w' + fallbackRetryTimeout (timeouts (options rest)) |}).
Proof.
  assert (forall r0 w0 c0 r w0',
            normal_sequence r0 w0 = (c0, r, w0') ->
            options r = options r0 /\ connection r = connection r0 /\
            (_currentFallback r = _currentFallback r0 \/
             exists i h,
               (1 <= i)%nat /\ getHosts P r0 !! i = Some h /\
               _currentFallback r =
                 Some {| host := Some h;
                         validUntil :=
                           now w0' + fallbackRetryTimeout (timeouts (options r0)) |}))
    as Hnormal.
  { intros r0 w0 c0 r w0' H.
    apply normal_sequence_record in H as [-> | (i & h & Hi & Hl & ->)].
    - repeat (split; [reflexivity|]). now left.
    - repeat (split; [reflexivity|]). right. exists i, h. now repeat split. }
  destruct fuel as [|fuel]; [discriminate|]. intros H.
  destruct (_currentFallback rest) as [f|] eqn:Ef.
  - destruct (Z.ltb_spec (now w) (validUntil f)) as [Hlive | Hexp].
    + rewrite (do_stored _ _ _ _ _ _ _ _ _ _ _ Ef Hlive) in H.
      destruct (doUri _ _ _ _ _ _ _ _ _) as [[a|exn] w1].
      * destruct (err_and_shouldFallback a).
        -- destruct fuel as [|fuel']; [discriminate|].
           rewrite do_cold in H by reflexivity. injection H as H.
           apply Hnormal in H as (Ho & Hc & Hf). cbn in Ho, Hc, Hf.
           split; [exact Ho|]. split; [exact Hc|]. right.
           destruct Hf as [Hf | Hf]; [now left | now right].
        -- injection H as _ <- _. rewrite Ef. repeat split. now left.
      * injection H as _ <- _. rewrite Ef. repeat split. now left.
    + rewrite (do_expired _ _ _ _ _ _ _ _ _ _ _ Ef Hexp) in H. injection H as H.
      apply Hnormal in H as (Ho & Hc & Hf). cbn in Ho, Hc, Hf.
      split; [exact Ho|]. split; [exact Hc|]. right.
      destruct Hf as [Hf | Hf]; [now left | now right].
  - rewrite do_cold in H by exact Ef. injection H as H.
    apply Hnormal in H as (Ho & Hc & Hf). rewrite Ef in Hf.
    split; [exact Ho|]. split; [exact Hc|].
    destruct Hf as [Hf | Hf]; [now left | right; now right].
Qed.

End Records.

(** ** From one dispatch to the next *)

Section NextDispatch.

Context (P : Platform) (net : Network).
Context (method : Method) (path : Path) (headers : option Headers)
        (body : option Buffer) (params : option Params).

Local Abbreviation tryAHost := (tryAHost P net method path headers body params).
Local Abbreviation normal_sequence :=
  (normal_sequence P net method path headers body params).
Local Abbreviation do_ := (do_ P net method path headers body params).
Local Abbreviation attempt rest h w :=
  (doUri P net method (Some rest) (uriFromHost P path rest h) headers body params w).
Local Abbreviation Run := (Run P net path).

(** X8: a record stored by a dispatch that found none is valid until the
    time of the answer that stored it plus fallbackRetryTimeout.  A later
    dispatch entered at or after that time is, request for request, the
    dispatch the client would have made had nothing been stored.  One
    entered before it sends its first request to the stored host; if that
    attempt does not fail retryably the dispatch ends there with the record
    kept, and if it does, the dispatch goes on as the client would have
    without the record. *)
Theorem stored_record_lives_for_the_timeout fuel rest w c rest' w' f :
  _currentFallback rest = None ->
  do_ (S fuel) rest w = Some (c, rest', w') ->
  _currentFallback rest' = Some f ->
  validUntil f = now w' + fallbackRetryTimeout (timeouts (options rest)) /\
  forall fuel2 w2,
    (validUntil f <= now w2 -> do_ (S fuel2) rest' w2 = do_ (S fuel2) rest w2) /\
    (now w2 < validUntil f ->
     exists c1 w3 o,
       attempt rest' (host f) w2 = (c1, w3) /\
       issued w3 = (issued w2 ++ [o])%list /\
       do_url o = uriFromHost P path rest (host f) /\
       match c1 with
       | Called a =>
           if err_and_shouldFallback a
           then do_ (S (S fuel2)) rest' w2 = do_ (S fuel2) rest w3
           else do_ (S fuel2) rest' w2 = Some (c1, rest', w3)
       | Unhandled _ => do_ (S fuel2) rest' w2 = Some (c1, rest', w3)
       end).
Proof.
  intros Ef H Ef'. rewrite do_cold in H by exact Ef. injection H as H.
  apply normal_sequence_record in H as [-> | (i & h & _ & _ & ->)]; [congruence|].
  cbn in Ef'. injection Ef' as <-. split; [reflexivity|].
  set (f := record_for rest (Some h) w').
  set (r1 := set_currentFallback rest (Some f)).
  assert (_currentFallback r1 = Some f) as Ef1 by reflexivity.
  assert (set_currentFallback r1 None = rest) as Hclear.
  { clear -Ef. destruct rest as [o c0 f0]. cbn in Ef. subst f0. reflexivity. }
  intros fuel2 w2. split.
  - intros Hexp.
    rewrite (do_expired _ _ _ _ _ _ _ _ _ _ _ Ef1 Hexp), Hclear.
    now rewrite do_cold by exact Ef.
  - intros Hlive.
    destruct (attempt_issued P net method path headers body params r1 (host f) w2)
      as (o & Hurl & _ & Hi).
    rewrite !(do_stored _ _ _ _ _ _ _ _ _ _ _ Ef1 Hlive).
    destruct (attempt r1 (host f) w2) as [c1 w3]. cbn [snd] in Hi.
    exists c1, w3, o. split; [reflexivity|]. split; [exact Hi|].
    split; [exact Hurl|].
    destruct c1 as [a|exn]; [|reflexivity].
    destruct (err_and_shouldFallback a); [|reflexivity].
    now rewrite Hclear.
Qed.

Lemma Run_first rest n hs os c :
  Run rest n hs os c ->
  exists h0 hs' o os',
    hs = h0 :: hs' /\ os = o :: os' /\ do_url o = uriFromHost P path rest h0.
Proof. destruct 1; eauto 10. Qed.

Lemma normal_sequence_first rest w c rest' w' :
  normal_sequence rest w = (c, rest', w') ->
  exists o os,
    issued w' = (issued w ++ o :: os)%list /\
    do_url o = uriFromHost P path rest (head (getHosts P rest)) /\
    (S (length os) <= Nat.max 1 (length (getHosts P rest)))%nat.
Proof.
  unfold normal_sequence.
  destruct (Nat.eqb_spec (length (getHosts P rest)) 1) as [E1|E1].
  - rewrite doUri_spec. intros H. injection H as _ _ <-. cbn.
    eexists _, []. split; [reflexivity|]. split; [|cbn; lia].
    cbn. destruct (getHosts P rest) as [|h [|? ?]]; try discriminate. reflexivity.
  - intros H.
    apply tryAHost_run in H as (hs & x & os & HRun & [k Hk] & _ & Hiss & _).
    destruct (Run_nonempty _ _ _ _ _ _ _ _ HRun) as [_ Hlen].
    destruct (Run_first _ _ _ _ _ HRun) as (h0 & hs' & o & os' & -> & -> & Hurl).
    exists o, os'. split; [exact Hiss|]. split.
    + rewrite Hurl. f_equal.
      destruct (getHosts P rest); cbn in Hk |- *; injection Hk as Hk _; congruence.
    + apply (f_equal (@length _)) in Hk. rewrite length_app in Hk.
      assert (length (candidates (getHosts P rest)) =
              Nat.max 1 (length (getHosts P rest))) as Hc.
      { unfold candidates. destruct (getHosts P rest); cbn; [reflexivity|].
        now rewrite length_map. }
      rewrite <- Hc, Hk. cbn [length] in Hlen |- *. lia.
Qed.

(** X9: for a client attached to a realtime host (a non-empty
    [connection.connectionManager.host]) with nothing stored, the resolved
    hosts are that host followed by the fallback hosts, the dispatch sends
    its first request to that host, and at most one more request per
    fallback host. *)
Theorem connected_host_is_tried_first fuel rest w h c rest' w' :
  _currentFallback rest = None ->
  connection rest = Some {| connectionManager_host := Some h |} ->
  h <> "" ->
  do_ (S fuel) rest w = Some (c, rest', w') ->
  getHosts P rest = h :: Defaults_getFallbackHosts P (options rest) /\
  exists o os,
    issued w' = (issued w ++ o :: os)%list /\
    do_url o = uriFromHost P path rest (Some h) /\
    (length os <= length (Defaults_getFallbackHosts P (options rest)))%nat.
Proof.
  intros Ef Hconn Hne H.
  assert (getHosts P rest = h :: Defaults_getFallbackHosts P (options rest)) as Hh.
  { unfold getHosts, connectionHost. rewrite Hconn. cbn.
    destruct (String.eqb_spec h ""); [contradiction | reflexivity]. }
  split; [exact Hh|].
  rewrite do_cold in H by exact Ef. injection H as H.
  apply normal_sequence_first in H as (o & os & Hi & Hurl & Hlen).
  rewrite Hh in Hurl, Hlen. cbn in Hurl, Hlen.
  exists o, os. split; [exact Hi|]. split; [exact Hurl | lia].
Qed.

End NextDispatch.

(** ** When the probe stays silent *)

Section SilentProbe.

Context (P : Platform) (net : Network).

Lemma handler_thrown response body exn :
  handler P None (Some response) body = Thrown exn <->
  300 <= res_statusCode response /\
  (decode_declared P (res_headers response !! "content-type") body = inl exn \/
   exists decoded,
     decode_declared P (res_headers response !! "content-type") body = inr decoded /\
     (decoded = VUndefined \/ decoded = VNull) /\
     exn = type_error P decoded "error").
Proof.
  destruct (Z.lt_ge_cases (res_statusCode response) 300) as [Hlt | Hge].
  - rewrite handler_below_300 by exact Hlt. split; [discriminate | lia].
  - rewrite handler_from_300 by exact Hge.
    destruct (decode_declared _ _ _) as [e|decoded].
    + split.
      * intros H. injection H as <-. split; [exact Hge | now left].
      * intros (_ & [H | (d & H & _)]); congruence.
    + split.
      * intros H. split; [exact Hge|]. right. exists decoded. split; [reflexivity|].
        destruct decoded; cbn in H; try discriminate; injection H as <-; tauto.
      * intros (_ & [H | (d & H & Hd & ->)]); [discriminate|].
        injection H as <-. destruct Hd as [-> | ->]; reflexivity.
Qed.

(** X10: the probe's callback is never invoked in exactly one situation:
    the up-check request is rejected with an HTTPError whose response has a
    status of 300 or more and a body that the decoder for its declared
    content type throws on, or that decodes to null or undefined.  The
    exception then has no handler. *)
Theorem probe_is_silent_only_on_undecodable_error_response (w : World) :
  exists o,
    issued (snd (checkConnectivity P net w)) = (issued w ++ [o])%list /\
    do_url o = Defaults_internetUpUrl P /\
    forall exn,
      fst (checkConnectivity P net w) = NotReported exn <->
      exists response,
        settled (net (length (issued w)) o) = Rejected (HTTPError response) /\
        300 <= res_statusCode response /\
        (decode_declared P (res_headers response !! "content-type")
                         (VBuffer (res_body response)) = inl exn \/
         exists decoded,
           decode_declared P (res_headers response !! "content-type")
                           (VBuffer (res_body response)) = inr decoded /\
           (decoded = VUndefined \/ decoded = VNull) /\
           exn = type_error P decoded "error").
Proof.
  destruct (checkConnectivity_eq P net w) as [Hfst Hsnd]. cbn zeta in Hfst, Hsnd.
  set (o := doOptions_of P M_get None (Defaults_internetUpUrl P) None None None w) in *.
  exists o. split; [exact Hsnd|]. split; [reflexivity|].
  intros exn. rewrite Hfst. unfold completion_of.
  set (s := settled (net (length (issued w)) o)).
  transitivity (settle P s = Unhandled exn).
  - destruct (settle P s) as [a|exn'].
    + split; [|discriminate].
      destruct (args_err a); [discriminate|]. destruct (toString _ _); discriminate.
    + split; intros H; injection H as ->; reflexivity.
  - rewrite settle_unhandled. split.
    + intros (response & Hs & Hh). exists response. split; [exact Hs|].
      now apply handler_thrown in Hh.
    + intros (response & Hs & Hh). exists response. split; [exact Hs|].
      now apply handler_thrown.
Qed.

End SilentProbe.

(** * Properties of Gruntfile.js *)

Section GruntfileFacts.

Import Gruntfile.

Lemma string_app_nil (b : string) : "" +:+ b = b.
Proof. reflexivity. Qed.

Lemma string_app_cons x (a b : string) : String x a +:+ b = String x (a +:+ b).
Proof. reflexivity. Qed.

Lemma strip_prefix_Some p : forall s r,
  strip_prefix p s = Some r <-> s = p +:+ r.
Proof.
  induction p as [|a p IH]; intros s r; cbn [strip_prefix].
  - rewrite string_app_nil.
    split; [intros H; now injection H as -> | intros ->; reflexivity].
  - rewrite string_app_cons. destruct s as [|b s]; [split; discriminate|].
    destruct (Ascii.eqb_spec a b) as [->|Hne].
    + rewrite IH. split; [intros ->; reflexivity | intros H; now injection H].
    + split; [discriminate | intros H; injection H as -> _; contradiction].
Qed.

Lemma string_app_length (a b : string) :
  String.length (a +:+ b) = (String.length a + String.length b)%nat.
Proof.
  induction a as [|x a IH]; [reflexivity|].
  rewrite string_app_cons. cbn [String.length]. now rewrite IH.
Qed.

(** [replace_first] finds the leftmost occurrence, or leaves the string
    alone when there is none. *)
Lemma replace_first_spec pat rep : forall s,
  (exists pre post,
     s = pre +:+ pat +:+ post /\
     (forall a b, s = a +:+ pat +:+ b -> (String.length pre <= String.length a)%nat) /\
     replace_first pat rep s = pre +:+ rep +:+ post) \/
  ((forall a b, s <> a +:+ pat +:+ b) /\ replace_first pat rep s = s).
Proof.
  induction s as [|c s IH]; cbn [replace_first].
  - destruct (strip_prefix pat "") as [rest|] eqn:E.
    + left. exists "", rest. apply strip_prefix_Some in E.
      split; [exact E|]. split; [cbn; lia | reflexivity].
    + right. split; [|reflexivity]. intros [|x a] b H.
      * rewrite string_app_nil in H.
        apply (strip_prefix_Some pat "" b) in H. congruence.
      * rewrite string_app_cons in H. discriminate H.
  - destruct (strip_prefix pat (String c s)) as [rest|] eqn:E.
    + left. exists "", rest. apply strip_prefix_Some in E.
      split; [exact E|]. split; [cbn; lia | reflexivity].
    + assert (forall b, String c s <> pat +:+ b) as Hhere.
      { intros b H. apply (strip_prefix_Some pat _ b) in H. congruence. }
      destruct IH as [(pre & post & Hs & Hmin & Hr) | [Hno Hr]].
      * left. exists (String c pre), post.
        split; [rewrite string_app_cons; now rewrite <- Hs|].
        split; [|rewrite string_app_cons; now rewrite Hr].
        intros [|x a] b H; [rewrite string_app_nil in H; now apply Hhere in H|].
        rewrite string_app_cons in H. injection H as _ H. apply Hmin in H.
        cbn [String.length]. lia.
      * right. split; [|now rewrite Hr].
        intros [|x a] b H; [rewrite string_app_nil in H; now apply Hhere in H|].
        rewrite string_app_cons in H. injection H as _ H. now apply Hno in H.
Qed.

(** X11: [compilerSpec] keeps [src]; a non-empty [dest] is used as given.
    Without one (or with the empty string), [dest] is [src] with its
    leftmost ".js" replaced by ".min.js", wherever in the name that is, and
    is then four characters longer than [src]; a [src] that contains no
    ".js" gets itself as [dest]. *)
Theorem compilerSpec_default_dest (src : string) :
  (forall dest,
     spec_src (compilerSpec src dest) = src /\
     (forall d, dest = Some d -> d <> "" -> spec_dest (compilerSpec src dest) = d)) /\
  spec_dest (compilerSpec src (Some "")) = spec_dest (compilerSpec src None) /\
  ((exists pre post,
      src = pre +:+ ".js" +:+ post /\
      (forall a b, src = a +:+ ".js" +:+ b ->
                   (String.length pre <= String.length a)%nat) /\
      spec_dest (compilerSpec src None) = pre +:+ ".min.js" +:+ post /\
      String.length (spec_dest (compilerSpec src None)) = (String.length src + 4)%nat) \/
   ((forall a b, src <> a +:+ ".js" +:+ b) /\
    spec_dest (compilerSpec src None) = src)).
Proof.
  split; [|split; [reflexivity|]].
  - intros dest. split; [reflexivity|]. intros d -> Hd. cbn.
    destruct (String.eqb_spec d ""); [contradiction | reflexivity].
  - cbn [compilerSpec spec_dest].
    destruct (replace_first_spec ".js" ".min.js" src)
      as [(pre & post & Hs & Hmin & Hr) | [Hno Hr]]; [left | right; now split].
    exists pre, post. repeat (split; [assumption|]).
    rewrite Hr, Hs, !string_app_length. cbn. lia.
Qed.

Lemma compilerSpec_default_dest_witness :
  spec_dest (compilerSpec "browser/static/ably.js" None) = "browser/static/ably.min.js" /\
  spec_dest (compilerSpec "lib.json.js" None) = "lib.min.json.js" /\
  spec_dest (compilerSpec "README" None) = "README" /\
  spec_dest (compilerSpec "a.js" (Some "out.js")) = "out.js".
Proof.
  split; [vm_compute; reflexivity|]. split; [vm_compute; reflexivity|].
  split; [vm_compute; reflexivity|].
  apply (proj1 (compilerSpec_default_dest "a.js") (Some "out.js"));
    [reflexivity | discriminate].
Defined.

(** X12: the deploy task looks for the infrastructure checkout in two
    places only, ../infrastructure and then ../../infrastructure: the loop
    bound of 14 + 3 * 3 characters is reached by the third path before it is
    tested.  It runs the deploy command in the first of the two that is a
    directory and is fatal when neither is, whatever lies further up. *)
Theorem ably_deploy_probes_two_levels (isDirectory : string -> bool)
    (version : string) (fuel : nat) :
  (3 <= fuel)%nat ->
  ably_deploy isDirectory fuel version =
    Some
      (if isDirectory "../infrastructure" then
         Exec ("cd ../infrastructure; bundle exec ./bin/ably-env deploy javascript --version "
               +:+ version)
       else if isDirectory "../../infrastructure" then
         Exec ("cd ../../infrastructure; bundle exec ./bin/ably-env deploy javascript --version "
               +:+ version)
       else
         Fatal "Infrastructure repo could not be found in any parent folders up to a folder depth of 3").
Proof.
  intros Hfuel. destruct fuel as [|[|[|fuel]]]; try lia.
  unfold ably_deploy, infrastructureDirExists.
  change (search isDirectory (S (S (S fuel))) "../infrastructure")
    with (if isDirectory "../infrastructure"
          then Some ("../infrastructure", true)
          else if isDirectory "../../infrastructure"
               then Some ("../../infrastructure", true)
               else Some ("../../../infrastructure", false)).
  destruct (isDirectory "../infrastructure"); [reflexivity|].
  destruct (isDirectory "../../infrastructure"); reflexivity.
Qed.

Lemma ably_deploy_probes_two_levels_witness :
  ably_deploy (fun p => String.eqb p "../../../infrastructure") 3 "1.2.3" =
    Some (Fatal "Infrastructure repo could not be found in any parent folders up to a folder depth of 3") /\
  ably_deploy (fun p => String.eqb p "../../infrastructure") 3 "1.2.3" =
    Some (Exec "cd ../../infrastructure; bundle exec ./bin/ably-env deploy javascript --version 1.2.3").
Proof.
  split.
  - rewrite (ably_deploy_probes_two_levels
               (fun p => String.eqb p "../../../infrastructure") "1.2.3" 3);
      [reflexivity | lia].
  - rewrite (ably_deploy_probes_two_levels
               (fun p => String.eqb p "../../infrastructure") "1.2.3" 3);
      [reflexivity | lia].
Defined.

End GruntfileFacts.

(** * Properties of the test fixture *)

Section FixtureFacts.

Import Setup.

Context (P : Platform) (Number_toString : Z -> string) (not_primitive : Err).

Local Abbreviation on_end := (on_end P Number_toString not_primitive).
Local Abbreviation as_string := (as_string Number_toString not_primitive).
Local Abbreviation createAccountAppAndKeys :=
  (createAccountAppAndKeys P Number_toString not_primitive).

Local Abbreviation body_of chunks :=
  (fold_left (fun response chunk => response +:+ chunk) chunks "").

(** X13: when the fixture's callback is invoked without an error, the
    server answered below 300 with a body (the chunks in order) that parsed;
    testAcctId, testAppId, testKey0Id and testKey0Value hold the response's
    accountId, id, keys[0].id and keys[0].value; testKey0Str is the string
    appId.keyId:keyValue made of the three; realtimeHost and realtimePort
    are as before. *)
Theorem fixture_success_builds_key_string server testVars testVars' :
  createAccountAppAndKeys server testVars = (testVars', Invokes WithNothing) ->
  exists statusCode chunks response s_app s_id s_value,
    server (postOptions testVars) = Response statusCode chunks /\
    statusCode < 300 /\
    JSON_parse P (VStr (body_of chunks)) = inr response /\
    get_property P response "accountId" = inr (testAcctId testVars') /\
    get_property P response "id" = inr (testAppId testVars') /\
    key0 P response "id" = inr (testKey0Id testVars') /\
    key0 P response "value" = inr (testKey0Value testVars') /\
    as_string (testAppId testVars') = inr s_app /\
    as_string (testKey0Id testVars') = inr s_id /\
    as_string (testKey0Value testVars') = inr s_value /\
    testKey0Str testVars' = VStr (s_app +:+ "." +:+ s_id +:+ ":" +:+ s_value) /\
    realtimeHost testVars' = realtimeHost testVars /\
    realtimePort testVars' = realtimePort testVars.
Proof.
  unfold Setup.createAccountAppAndKeys.
  destruct (server (postOptions testVars)) as [err | statusCode chunks];
    [discriminate|].
  unfold Setup.on_end.
  destruct (Z.leb_spec 300 statusCode) as [Hge|Hlt]; [discriminate|].
  destruct (JSON_parse P _) as [exn|response] eqn:Hparse; [discriminate|].
  destruct (get_property P response "accountId") as [exn|accountId] eqn:Ha;
    [discriminate|].
  destruct (get_property P response "id") as [exn|id] eqn:Hi; [discriminate|].
  destruct (key0 P response "id") as [exn|key_id] eqn:Hk; [discriminate|].
  destruct (key0 P response "value") as [exn|key_value] eqn:Hv; [discriminate|].
  destruct (as_string id) as [exn|s_app] eqn:Ea; [discriminate|].
  destruct (as_string key_id) as [exn|s_id] eqn:Eb; [discriminate|].
  destruct (as_string key_value) as [exn|s_value] eqn:Ec; [discriminate|].
  intros H. injection H as <-. cbn.
  exists statusCode, chunks, response, s_app, s_id, s_value.
  repeat (split; [first [assumption | reflexivity]|]). reflexivity.
Qed.

(** X14: realtimeHost and realtimePort are never written.  Whenever the
    callback is told of a failure (the 'error' event, or a status of 300 or
    more) testVars is exactly as it was: what the 'end' handler writes
    before it fails part-way is only ever left behind when it throws, and
    then the callback does not run at all.  testKey0Str is written only on
    success. *)
Theorem fixture_reports_failure_with_vars_untouched server testVars testVars' ending :
  createAccountAppAndKeys server testVars = (testVars', ending) ->
  realtimeHost testVars' = realtimeHost testVars /\
  realtimePort testVars' = realtimePort testVars /\
  (forall i, ending = Invokes i -> i <> WithNothing ->
     testVars' = testVars /\
     ((exists err, i = WithError err /\
                   server (postOptions testVars) = ErrorEvent err) \/
      (exists statusCode chunks,
         server (postOptions testVars) = Response statusCode chunks /\
         300 <= statusCode /\
         i = WithMessage ("Invalid HTTP request: " +:+ body_of chunks
                          +:+ "; statusCode = " +:+ Number_toString statusCode)))) /\
  (ending <> Invokes WithNothing -> testKey0Str testVars' = testKey0Str testVars).
Proof.
  unfold Setup.createAccountAppAndKeys.
  destruct (server (postOptions testVars)) as [err | statusCode chunks].
  { intros H. injection H as <- <-. repeat (split; [reflexivity|]).
    split; [|reflexivity]. intros i H _. injection H as <-.
    split; [reflexivity|]. left. eauto. }
  unfold Setup.on_end.
  destruct (Z.leb_spec 300 statusCode) as [Hge|Hlt].
  { intros H. injection H as <- <-. repeat (split; [reflexivity|]).
    split; [|reflexivity]. intros i H _. injection H as <-.
    split; [reflexivity|]. right. eauto. }
  destruct (JSON_parse P _) as [exn|response];
    [intros H; injection H as <- <-; repeat (split; [reflexivity|]);
     split; [discriminate | reflexivity]|].
  destruct (get_property P response "accountId") as [exn|accountId];
    [intros H; injection H as <- <-; repeat (split; [reflexivity|]);
     split; [discriminate | reflexivity]|].
  destruct (get_property P response "id") as [exn|id];
    [intros H; injection H as <- <-; repeat (split; [reflexivity|]);
     split; [discriminate | reflexivity]|].
  destruct (key0 P response "id") as [exn|key_id];
    [intros H; injection H as <- <-; repeat (split; [reflexivity|]);
     split; [discriminate | reflexivity]|].
  destruct (key0 P response "value") as [exn|key_value];
    [intros H; injection H as <- <-; repeat (split; [reflexivity|]);
     split; [discriminate | reflexivity]|].
  destruct (as_string id) as [exn|s_app], (as_string key_id) as [exn'|s_id],
           (as_string key_value) as [exn''|s_value];
    intros H; cbn beta iota in H; injection H as <- <-;
    repeat (split; [reflexivity|]);
    (split; [intros i H Hi; first [discriminate H | injection H as <-; contradiction]
            | first [reflexivity | intros Hne; now contradiction Hne]]).
Qed.

(** X15: a response below 300 whose body parses to an object that has no
    [keys], or an empty [keys] array, makes the 'end' handler throw a
    TypeError at the third assignment: by then testAcctId and testAppId hold
    the response's accountId and id, the other fields are as before, and the
    callback is never invoked. *)
Theorem fixture_without_keys_is_half_written server testVars statusCode chunks fields :
  server (postOptions testVars) = Response statusCode chunks ->
  statusCode < 300 ->
  JSON_parse P (VStr (body_of chunks)) = inr (VObj fields) ->
  assoc "keys" fields = VUndefined \/ assoc "keys" fields = VArr [] ->
  exists exn,
    err_class exn = TypeError /\
    createAccountAppAndKeys server testVars =
      ({| realtimeHost := realtimeHost testVars;
          realtimePort := realtimePort testVars;
          testAcctId := assoc "accountId" fields;
          testAppId := assoc "id" fields;
          testKey0Id := testKey0Id testVars;
          testKey0Value := testKey0Value testVars;
          testKey0Str := testKey0Str testVars |},
       Throws exn).
Proof.
  intros Hs Hlt Hparse Hkeys.
  unfold Setup.createAccountAppAndKeys. rewrite Hs. unfold Setup.on_end.
  destruct (Z.leb_spec 300 statusCode) as [Hge|_]; [lia|].
  rewrite Hparse. cbn [get_property key0].
  destruct Hkeys as [-> | ->]; eexists; (split; [|reflexivity]); reflexivity.
Qed.

End FixtureFacts.

(** ** The further properties on concrete runs *)

Lemma do_delivers_well_formed_arguments_witness :
  exists a rest' w',
    do_ Examples.platform Examples.net_timeout_then_404 M_get Examples.path
        None None None 2 Examples.client Examples.world0 =
      Some (Called a, rest', w') /\
    args_shape a.
Proof.
  eexists _, _, _. split; [vm_compute; reflexivity|].
  eapply (do_delivers_well_formed_arguments
            Examples.platform Examples.net_timeout_then_404 M_get Examples.path
            None None None 2 Examples.client Examples.world0).
  vm_compute. reflexivity.
Defined.

Lemma undeclared_error_response_is_synthesized_witness :
  exists error,
    settle Examples.platform (Rejected (HTTPError Examples.response_503_plain)) =
      Called (ArgsFull (Some error) (VBuffer "unavailable") ∅ true 503) /\
    shouldFallback error = true.
Proof.
  destruct (undeclared_error_response_is_synthesized
              Examples.platform Examples.response_503_plain
              ltac:(simpl; lia) ltac:(discriminate) ltac:(discriminate))
    as (Hs & _ & Hretry).
  eexists. split; [exact Hs|].
  apply Hretry. left. simpl. lia.
Defined.


Lemma do_leaves_a_record_of_a_later_host_witness :
  exists c rest' w',
    do_ Examples.platform Examples.net_timeout_then_ok M_get Examples.path
        None None None 2 Examples.client Examples.world0 = Some (c, rest', w') /\
    _currentFallback rest' = Some {| host := Some "B"; validUntil := 601050 |} /\
    options rest' = options Examples.client.
Proof.
  eexists _, _, _. split; [vm_compute; reflexivity|]. split; [reflexivity|].
  eapply (do_leaves_a_record_of_a_later_host
            Examples.platform Examples.net_timeout_then_ok M_get Examples.path
            None None None 2 Examples.client Examples.world0).
  vm_compute. reflexivity.
Defined.

Lemma stored_record_lives_for_the_timeout_witness :
  exists c rest' w',
    do_ Examples.platform Examples.net_timeout_then_ok M_get Examples.path
        None None None 1 Examples.client Examples.world0 = Some (c, rest', w') /\
    _currentFallback rest' = Some (Examples.stored_B 601050) /\
    do_ Examples.platform Examples.net_timeout_then_ok M_get Examples.path
        None None None 1 rest'
        {| now := 601050; issued := []; Http_agent := None; agents_made := 0 |} =
    do_ Examples.platform Examples.net_timeout_then_ok M_get Examples.path
        None None None 1 Examples.client
        {| now := 601050; issued := []; Http_agent := None; agents_made := 0 |}.
Proof.
  eexists _, _, _. split; [vm_compute; reflexivity|]. split; [reflexivity|].
  refine (proj1 (proj2 (stored_record_lives_for_the_timeout
            Examples.platform Examples.net_timeout_then_ok M_get Examples.path
            None None None 0%nat Examples.client Examples.world0 _ _ _
            (Examples.stored_B 601050) _ _ _) 0%nat
            {| now := 601050; issued := []; Http_agent := None; agents_made := 0 |}) _).
  - reflexivity.
  - vm_compute. reflexivity.
  - reflexivity.
  - simpl. lia.
Defined.

Lemma connected_host_is_tried_first_witness :
  exists c rest' w' o os,
    do_ Examples.platform Examples.net_ok M_get Examples.path None None None 1
        connected_client Examples.world0 = Some (c, rest', w') /\
    getHosts Examples.platform connected_client = ["C"; "B"] /\
    issued w' = (issued Examples.world0 ++ o :: os)%list /\
    do_url o = "https://C:443/time".
Proof.
  eexists _, _, _.
  assert (forall c rest' w',
            do_ Examples.platform Examples.net_ok M_get Examples.path None None None 1
                connected_client Examples.world0 = Some (c, rest', w') ->
            exists o os,
              do_ Examples.platform Examples.net_ok M_get Examples.path None None None 1
                  connected_client Examples.world0 = Some (c, rest', w') /\
              getHosts Examples.platform connected_client = ["C"; "B"] /\
              issued w' = (issued Examples.world0 ++ o :: os)%list /\
              do_url o = "https://C:443/time") as H.
  { intros c rest' w' Hdo.
    destruct (connected_host_is_tried_first
                Examples.platform Examples.net_ok M_get Examples.path None None None
                0 connected_client Examples.world0 "C" c rest' w'
                ltac:(reflexivity) ltac:(reflexivity) ltac:(discriminate) Hdo)
      as (Hh & o & os & Hi & Hurl & _).
    exists o, os. split; [exact Hdo|]. split; [exact Hh|].
    split; [exact Hi | exact Hurl]. }
  apply H. vm_compute. reflexivity.
Defined.

Lemma probe_is_silent_only_on_undecodable_error_response_witness :
  fst (checkConnectivity Examples.platform net_404_malformed Examples.world0) =
    NotReported Examples.syntax_error.
Proof.
  destruct (probe_is_silent_only_on_undecodable_error_response
              Examples.platform net_404_malformed Examples.world0)
    as (o & _ & _ & Hiff).
  apply Hiff. exists Examples.response_404_malformed.
  split; [reflexivity|]. split; [simpl; lia|]. left. vm_compute. reflexivity.
Defined.

Lemma fixture_success_builds_key_string_witness :
  exists testVars',
    Setup.createAccountAppAndKeys SetupExamples.platform pretty
      SetupExamples.not_primitive SetupExamples.server_ok SetupExamples.vars0 =
      (testVars', Setup.Invokes Setup.WithNothing) /\
    Setup.testKey0Str testVars' = VStr "app.k0:secret" /\
    Setup.testAcctId testVars' = VStr "acct".
Proof.
  eexists. split; [vm_compute; reflexivity|]. split; [reflexivity|].
  destruct (fixture_success_builds_key_string
              SetupExamples.platform pretty SetupExamples.not_primitive
              SetupExamples.server_ok SetupExamples.vars0 _
              ltac:(vm_compute; reflexivity))
    as (sc & chunks & response & s_app & s_id & s_value & _).
  reflexivity.
Defined.

Lemma fixture_reports_failure_with_vars_untouched_witness :
  exists message,
    Setup.createAccountAppAndKeys SetupExamples.platform pretty
      SetupExamples.not_primitive SetupExamples.server_500 SetupExamples.vars0 =
      (SetupExamples.vars0, Setup.Invokes (Setup.WithMessage message)) /\
    message = "Invalid HTTP request: oops; statusCode = 500".
Proof.
  eexists. split; [vm_compute; reflexivity|].
  destruct (fixture_reports_failure_with_vars_untouched
              SetupExamples.platform pretty SetupExamples.not_primitive
              SetupExamples.server_500 SetupExamples.vars0 _ _
              ltac:(vm_compute; reflexivity))
    as (_ & _ & H & _).
  destruct (H _ eq_refl ltac:(discriminate)) as [_ _]. reflexivity.
Defined.

Lemma fixture_without_keys_is_half_written_witness :
  exists exn,
    err_class exn = TypeError /\
    Setup.createAccountAppAndKeys SetupExamples.platform pretty
      SetupExamples.not_primitive SetupExamples.server_no_keys SetupExamples.vars0 =
      ({| Setup.realtimeHost := VStr "sandbox"; Setup.realtimePort := VNum 443;
          Setup.testAcctId := VStr "acct"; Setup.testAppId := VStr "app";
          Setup.testKey0Id := VUndefined; Setup.testKey0Value := VUndefined;
          Setup.testKey0Str := VUndefined |},
       Setup.Throws exn).
Proof.
  apply (fixture_without_keys_is_half_written
           SetupExamples.platform pretty SetupExamples.not_primitive
           SetupExamples.server_no_keys SetupExamples.vars0 200
           [SetupExamples.body_no_keys]
           [("accountId", VStr "acct"); ("id", VStr "app")]).
  - reflexivity.
  - lia.
  - vm_compute. reflexivity.
  - left. reflexivity.
Defined.
